(** * atopile [ato install]: a shallow embedding of [src/atopile/cli/install.py]

  The development follows the source file function by function:
  [split_module_spec], [set_dependency_to_ato_yaml], [install_dependency]
  and [install_jlcpcb].  Python values are modelled as the code has them:
  [str] as [string] (one character per code point U+0000..U+00FF), the
  [dict] built by a comprehension as a [gmap], the insertion-ordered
  [semver_to_tag] dict as an association list, exceptions as a result
  type, and the file system / git working copies as an explicit state
  threaded through a small state-and-exception monad. *)

From Stdlib Require Import ZArith NArith Ascii String List Lia.
From Stdlib Require DecimalString.
From stdpp Require Import base option list gmap strings.

Open Scope string_scope.
Open Scope list_scope.
Open Scope Z_scope.

(** ** Python [str] primitives *)

Module PyStr.

(** [s.startswith(prefix)] *)
Fixpoint startswith (pre s : string) : bool :=
  match pre, s with
  | EmptyString, _ => true
  | String _ _, EmptyString => false
  | String a pre', String b s' => if Ascii.eqb a b then startswith pre' s' else false
  end.

(** [sub in s] *)
Fixpoint contains (sub s : string) : bool :=
  if startswith sub s then true
  else match s with
       | EmptyString => false
       | String _ s' => contains sub s'
       end.

(** [s.find(sub)]: the lowest index where [sub] starts, [-1] when there is none. *)
Fixpoint find_from (sub s : string) (i : Z) : Z :=
  if startswith sub s then i
  else match s with
       | EmptyString => -1
       | String _ s' => find_from sub s' (i + 1)
       end.

Definition find (sub s : string) : Z := find_from sub s 0.

Fixpoint len (s : string) : Z :=
  match s with
  | EmptyString => 0
  | String _ s' => 1 + len s'
  end.

Fixpoint take (n : nat) (s : string) : string :=
  match n, s with
  | O, _ => EmptyString
  | S _, EmptyString => EmptyString
  | S n', String c s' => String c (take n' s')
  end.

Fixpoint drop (n : nat) (s : string) : string :=
  match n, s with
  | O, _ => s
  | S _, EmptyString => EmptyString
  | S n', String _ s' => drop n' s'
  end.

(** A slice bound as Python normalises it: negative bounds count from the
  end, and the result is clamped to [0 .. len s]. *)
Definition slice_index (s : string) (i : Z) : nat :=
  Z.to_nat (if i <? 0 then Z.max 0 (len s + i) else Z.min i (len s)).

(** [s[:i]] and [s[i:]] *)
Definition slice_to (s : string) (i : Z) : string := take (slice_index s i) s.
Definition slice_from (s : string) (i : Z) : string := drop (slice_index s i) s.

(** [c.isspace()] for a code point below 256: TAB..CR, FS..US, SPACE,
  NEL (U+0085) and NBSP (U+00A0). *)
Definition isspace (c : ascii) : bool :=
  let n := N_of_ascii c in
  (((9 <=? n) && (n <=? 13)) || ((28 <=? n) && (n <=? 32)) || (n =? 133) || (n =? 160))%N.

Fixpoint lstrip_with (p : ascii -> bool) (s : string) : string :=
  match s with
  | EmptyString => EmptyString
  | String c s' => if p c then lstrip_with p s' else s
  end.

Fixpoint rstrip_with (p : ascii -> bool) (s : string) : string :=
  match s with
  | EmptyString => EmptyString
  | String c s' =>
      match rstrip_with p s' with
      | EmptyString => if p c then EmptyString else String c EmptyString
      | r => String c r
      end
  end.

Definition strip_with (p : ascii -> bool) (s : string) : string :=
  rstrip_with p (lstrip_with p s).

(** [s.strip()] *)
Definition strip (s : string) : string := strip_with isspace s.

Fixpoint mem_char (c : ascii) (chars : string) : bool :=
  match chars with
  | EmptyString => false
  | String d chars' => Ascii.eqb c d || mem_char c chars'
  end.

(** [s.strip(chars)] *)
Definition strip_chars (chars s : string) : string :=
  strip_with (fun c => mem_char c chars) s.

(** A string's truth value: non-empty. *)
Definition truthy (s : string) : bool :=
  match s with EmptyString => false | String _ _ => true end.

End PyStr.

(** ** The [atopile.version] module, as [install.py] uses it

  [OPERATORS], [parse], [match] and the [Version] class are imported from
  [atopile.version], which is not part of the sources at hand; they are
  parameters of the development.  [version_parse] returns [None] where
  [version.parse] raises [AtoError]; [version_gt] is the [>] that [max]
  applies to two versions; [version_truthy] is a version's truth value. *)
Class VersionLib := {
  Version : Type;
  Version_eq_dec :: EqDecision Version;
  OPERATORS : list string;
  version_parse : string -> option Version;
  version_match : string -> Version -> bool;
  version_gt : Version -> Version -> bool;
  version_truthy : Version -> bool;
}.

(** ** Exceptions and the state-and-exception monad *)

(** Text that may hold code points above U+00FF (the result of [str.upper]). *)
Definition ustr := list N.

Fixpoint code_points (s : string) : ustr :=
  match s with
  | EmptyString => []
  | String c s' => N_of_ascii c :: code_points s'
  end.

Inductive Exn :=
  | AtoError (msg : ustr)
  | ValueError (msg : string)
  | UnboundLocalError (var : string)
  | KeyError (key : string)
  | GitCommandError (command : string)
  | InvalidGitRepositoryError (path : string)
  | ConfigError (path : string).

Inductive Result (A : Type) :=
  | Return (a : A)
  | Raise (e : Exn).
Arguments Return {A} a.
Arguments Raise {A} e.

Definition M (St A : Type) : Type := St -> Result A * St.

Definition ret {St A} (a : A) : M St A := fun s => (Return a, s).

Definition raise {St A} (e : Exn) : M St A := fun s => (Raise e, s).

Definition bind {St A B} (c : M St A) (k : A -> M St B) : M St B :=
  fun s => match c s with
           | (Return a, s') => k a s'
           | (Raise e, s') => (Raise e, s')
           end.

Definition get {St} : M St St := fun s => (Return s, s).

Definition modify {St} (f : St -> St) : M St unit := fun s => (Return tt, f s).

Notation "'do' x <- c ; k" := (bind c (fun x => k))
  (at level 10, x name, c at level 100, k at level 200).
Notation "c ;; k" := (bind c (fun _ => k))
  (at level 100, k at level 200, right associativity).

(** ** [split_module_spec] *)

Section SplitModuleSpec.
Context `{VersionLib}.

(** The [for splitter in ...] loop of [split_module_spec]. *)
Fixpoint split_loop (splitters : list string) (spec : string) : string * option string :=
  match splitters with
  | [] => (spec, None)
  | splitter :: rest =>
      if PyStr.contains splitter spec then
        let splitter_loc := PyStr.find splitter spec in
        if splitter_loc <? 0 then split_loop rest spec
        else
          let module_name := PyStr.strip (PyStr.slice_to spec splitter_loc) in
          let version_spec := PyStr.strip (PyStr.slice_from spec splitter_loc) in
          (module_name, Some version_spec)
      else split_loop rest spec
  end.

(** [chain(version.OPERATORS, (" ", "@"))] *)
Definition splitters : list string := OPERATORS ++ [" "; "@"].

Definition split_module_spec (spec : string) : string * option string :=
  split_loop splitters spec.

End SplitModuleSpec.

(** ** [set_dependency_to_ato_yaml] *)

(** The data of [ato.yaml] once loaded: the [dependencies] key ([None] when
    the key is absent) and the other keys, which the function never reads. *)
Record AtoYaml := {
    dependencies : option (list string);
    other_keys : gmap string string;
}.

(** [yaml.safe_load] and [yaml.safe_dump] over the stored content of a file.
    [safe_load] gives [None] for an empty document. *)
Class YamlLib := {
    FileContent : Type;
    yaml_safe_load : FileContent -> option AtoYaml;
    yaml_safe_dump : AtoYaml -> FileContent;
}.

(** [pathlib]'s [a / b] for a relative [b]. *)
Definition path_join (a b : string) : string := a +:+ "/" +:+ b.

(** [l.remove(x)]: drops the first occurrence; [None] where Python raises
    [ValueError]. *)
Fixpoint list_remove (x : string) (l : list string) : option (list string) :=
  match l with
  | [] => None
  | y :: l' => if decide (y = x) then Some l' else (fun r => y :: r) <$> list_remove x l'
  end.

Section ManifestEditor.
Context `{VersionLib} `{YamlLib}.

(** [{split_module_spec(x)[0]: x for x in dependencies}]: a later entry of
    the same name replaces an earlier one. *)
Definition dependencies_by_name (deps : list string) : gmap string string :=
  foldl (fun m x => <[ (split_module_spec x).1 := x ]> m) ∅ deps.

(** Lines 91-98 on the in-memory list: the list as the function leaves it,
    and whether the appending branch (the one that writes the file) ran. *)
Definition update_dependencies (deps : list string) (module_spec : string)
    : Result (list string * bool) :=
  let module_to_install := (split_module_spec module_spec).1 in
  let removed :=
    match dependencies_by_name deps !! module_to_install with
    | Some existing_spec =>
        if decide (existing_spec = module_spec) then Return deps
        else match list_remove existing_spec deps with
             | Some deps' => Return deps'
             | None => Raise (ValueError "list.remove(x): x not in list")
             end
    | None => Return deps
    end in
  match removed with
  | Raise e => Raise e
  | Return deps' =>
      if decide (module_spec ∈ deps') then Return (deps', false)
      else Return (deps' ++ [module_spec], true)
  end.

Definition empty_yaml : AtoYaml := {| dependencies := None; other_keys := ∅ |}.

(** The files of the project, by path. *)
Definition set_dependency_to_ato_yaml (top_level_path module_spec : string)
    : M (gmap string FileContent) unit :=
  let ato_yaml_path := path_join top_level_path "ato.yaml" in
  do files <- get;
  match files !! ato_yaml_path with
  | None => raise (AtoError (code_points ("ato.yaml not found in " +:+ top_level_path)))
  | Some content =>
      let data := default empty_yaml (yaml_safe_load content) in
      let deps := default [] (dependencies data) in
      match update_dependencies deps module_spec with
      | Raise e => raise e
      | Return (deps', appended) =>
          if appended then
            modify (insert ato_yaml_path
                      (yaml_safe_dump {| dependencies := Some deps';
                                         other_keys := other_keys data |}))
          else ret tt
      end
  end.

End ManifestEditor.

(** ** [install_dependency] *)

(** A git working copy, as far as the installer looks at it: the names of
    its tags (in the order [repo.tags] lists them), whether it is dirty, the
    commit its head is at, and the files of its working tree. *)
Record Repo := {
    repo_tags : list string;
    repo_dirty : bool;
    repo_head : string;
    repo_worktree : gmap string string;
}.

(** The git commands the installer issues, which GitPython runs for it:
    [Repo.clone_from(url, path)], [repo.remotes.origin.fetch()] and
    [repo.git.checkout(ref)].  Each gives the working copy it leaves behind,
    or [None] when the command fails. *)
Class GitBackend := {
    remote_clone : string -> option Repo;
    origin_fetch : Repo -> option Repo;
    git_checkout : string -> Repo -> option Repo;
}.

(** [config.get_project_config_from_path(p).paths.abs_module_path], [None]
    when the project configuration cannot be resolved. *)
Class ProjectConfig := {
    abs_module_path : string -> option string;
}.

Inductive Event :=
  | LogInfo (msg : string)
  | LogDebug (msg : string)
  | LogWarning (msg : string)
  | GitClone (url path : string)
  | GitFetch (path : string)
  | GitCheckout (path ref : string).

(** The directories that exist, the valid repositories by path, and what
    has been logged and run so far. *)
Record State := {
    dirs : gset string;
    repos : gmap string Repo;
    events : list Event;
}.

Definition emit (e : Event) : M State unit :=
  modify (fun s => {| dirs := dirs s; repos := repos s; events := events s ++ [e] |}).

Definition set_repo (path : string) (r : Repo) : M State unit :=
  modify (fun s => {| dirs := dirs s; repos := <[path := r]> (repos s); events := events s |}).

(** [path.mkdir(parents=True, exist_ok=True)] *)
Definition mkdir (path : string) : M State unit :=
  modify (fun s => {| dirs := {[path]} ∪ dirs s; repos := repos s; events := events s |}).

(** Reading the working copy behind a [Repo] object. *)
Definition read_repo (path : string) : M State Repo :=
  do s <- get;
  match repos s !! path with
  | Some r => ret r
  | None => raise (InvalidGitRepositoryError path)
  end.

(** What [best_checkout] can hold: the text after [@], or a tag object. *)
Inductive Ref :=
  | RefName (name : string)
  | RefTag (tag : string).

(** [str(best_checkout)]: the text after [@] is itself; a tag object prints
    as its name, the same [tag.name] that line 147 parses. *)
Definition ref_str (r : Ref) : string :=
  match r with
  | RefName name => name
  | RefTag tag => tag
  end.

Section RepositoryResolver.
Context `{VersionLib} `{GitBackend} `{ProjectConfig}.

(** What [install_dependency] can return. *)
Inductive Value :=
  | VNone
  | VRef (r : Ref)
  | VVersion (v : Version).

(** [d[k] = v] on an insertion-ordered dict. *)
Fixpoint dict_set (k : Version) (v : string) (d : list (Version * string))
    : list (Version * string) :=
  match d with
  | [] => [(k, v)]
  | (k', v') :: d' =>
      if decide (k' = k) then (k', v) :: d' else (k', v') :: dict_set k v d'
  end.

(** [d[k]] *)
Fixpoint dict_get (k : Version) (d : list (Version * string)) : option string :=
  match d with
  | [] => None
  | (k', v') :: d' => if decide (k' = k) then Some v' else dict_get k d'
  end.

(** The [for tag in repo.tags] loop (lines 145-149). *)
Fixpoint parse_tags (tags : list string) (semver_to_tag : list (Version * string))
    : M State (list (Version * string)) :=
  match tags with
  | [] => ret semver_to_tag
  | tag :: rest =>
      match version_parse tag with
      | Some v => parse_tags rest (dict_set v tag semver_to_tag)
      | None =>
          emit (LogDebug ("Tag " +:+ tag +:+ " is not a valid semver tag. Skipping."));;
          parse_tags rest semver_to_tag
      end
  end.

(** [max(l)]: the first element no later one is greater than; [None] where
    Python raises [ValueError]. *)
Definition py_max (l : list Version) : option Version :=
  match l with
  | [] => None
  | x :: l' => Some (foldl (fun cur item => if version_gt item cur then item else cur) x l')
  end.

(** Lines 151-163: the values of [installed_semver] and [best_checkout]
    ([None] for [best_checkout] when no branch assigned it). *)
Definition select_checkout (module_spec : string) (semver_to_tag : list (Version * string))
    : M State (option Version * option Ref) :=
  if PyStr.contains "@" module_spec then
    ret (None, Some (RefName (PyStr.strip_chars "@" (PyStr.strip module_spec))))
  else
    match semver_to_tag with
    | _ :: _ =>
        let valid_versions := filter (fun v => version_match module_spec v = true)
                                     (semver_to_tag.*1) in
        match py_max valid_versions with
        | None => raise (ValueError "max() arg is an empty sequence")
        | Some installed_semver =>
            match dict_get installed_semver semver_to_tag with
            | None => raise (KeyError "installed_semver")
            | Some tag => ret (Some installed_semver, Some (RefTag tag))
            end
        end
    | [] =>
        emit (LogWarning "No semver tags found for this module. Using latest default branch :hot_pepper:.");;
        ret (None, None)
    end.

(** Lines 165-186: the dirty check, the checkout and the return value. *)
Definition checkout_best (module_name repo : string)
      (installed_semver : option Version) (best_checkout : option Ref) : M State Value :=
  do r <- read_repo repo;
  if repo_dirty r then
    raise (AtoError (code_points ("Module " +:+ module_name +:+ " has uncommitted changes. Aborting.")))
  else
    let commit_before_checkout := repo_head r in
    match best_checkout with
    | None => raise (UnboundLocalError "best_checkout")
    | Some ref =>
        emit (GitCheckout repo (ref_str ref));;
        match git_checkout (ref_str ref) r with
        | None => raise (GitCommandError "checkout")
        | Some r' =>
            set_repo repo r';;
            (if decide (repo_head r' = commit_before_checkout) then
               emit (LogInfo ("Already on the best option ([cyan bold]" +:+ ref_str ref
                              +:+ "[/]) for " +:+ module_name))
             else
               emit (LogInfo ("Using :sparkles: [cyan bold]" +:+ ref_str ref
                              +:+ "[/] :sparkles: of " +:+ module_name)));;
            match installed_semver with
            | Some v => if version_truthy v then ret (VRef ref) else ret VNone
            | None => ret VNone
            end
        end
    end.

(** Lines 142-163: version selection over the tags of the working copy. *)
Definition select_version (module_spec : string) (tags : list string)
    : M State (option Version * option Ref) :=
  do semver_to_tag <- parse_tags tags [];
  select_checkout module_spec semver_to_tag.

(** Lines 142-186, once [repo] is the working copy to install from. *)
Definition resolve_and_checkout (module_name module_spec repo : string) : M State Value :=
  do r <- read_repo repo;
  do sel <- select_version module_spec (repo_tags r);
  checkout_best module_name repo sel.1 sel.2.

Definition install_dependency (module top_level_path : string) (upgrade : bool)
    : M State Value :=
  let module_name := (split_module_spec module).1 in
  let module_spec :=
    match (split_module_spec module).2 with
    | Some spec => if PyStr.truthy spec then spec else "*"
    | None => "*"
    end in
  match abs_module_path top_level_path with
  | None => raise (ConfigError top_level_path)
  | Some modules_path =>
      mkdir modules_path;;
      let repo := path_join modules_path module_name in
      do s <- get;
      match repos s !! repo with
      | None =>
          emit (LogInfo ("Installing dependency " +:+ module_name));;
          let clone_url := "https://gitlab.atopile.io/packages/" +:+ module_name in
          emit (GitClone clone_url repo);;
          match remote_clone clone_url with
          | None => raise (GitCommandError "clone")
          | Some r => set_repo repo r;; resolve_and_checkout module_name module_spec repo
          end
      | Some r =>
          if upgrade then
            emit (LogInfo ("Fetching latest changes for " +:+ module_name));;
            emit (GitFetch repo);;
            match origin_fetch r with
            | None => raise (GitCommandError "fetch")
            | Some r' => set_repo repo r';; resolve_and_checkout module_name module_spec repo
            end
          else
            emit (LogInfo (module_name +:+ " already exists. If you wish to upgrade, use --upgrade"));;
            ret VNone
      end
  end.

End RepositoryResolver.

(** ** [install_jlcpcb] *)

Module PyUnicode.

(** [c.upper()] for a code point below 256.  Three of them leave the 8-bit
    range: MICRO SIGN gives U+039C, SHARP S gives two letters S, and
    Y WITH DIAERESIS gives U+0178. *)
Definition upper_cp (c : N) : ustr :=
  (if (97 <=? c) && (c <=? 122) then [c - 32]
   else if c =? 181 then [924]
   else if c =? 223 then [83; 83]
   else if (224 <=? c) && (c <=? 254) && negb (c =? 247) then [c - 32]
   else if c =? 255 then [376]
   else [c])%N.

(** [s.upper()] *)
Definition upper (s : string) : ustr := flat_map upper_cp (code_points s).

(** Whether a code point is a digit for [str.isdigit]: the decimal digits
    and the superscripts one, two and three.  Exact below U+0100 and on the
    two code points above it that [upper_cp] gives. *)
Definition isdigit_cp (c : N) : bool :=
  (((48 <=? c) && (c <=? 57)) || (c =? 178) || (c =? 179) || (c =? 185))%N.

(** [s.isdigit()]: false on the empty string. *)
Definition isdigit (s : ustr) : bool :=
  match s with
  | [] => false
  | _ :: _ => forallb isdigit_cp s
  end.

(** [s.startswith(prefix)] *)
Fixpoint startswith (pre s : ustr) : bool :=
  match pre, s with
  | [], _ => true
  | _ :: _, [] => false
  | a :: pre', b :: s' => if (a =? b)%N then startswith pre' s' else false
  end.

End PyUnicode.

(** The repository enclosing the current directory. *)
Record EnclosingRepo := {
    working_tree_dir : string;
    remote_url : option string;
}.

(** What [install_jlcpcb] finds outside the process: the repository found by
    [Repo(".", search_parent_directories=True)] ([None] when there is none)
    and the outcome [(returncode, stdout, stderr)] of running a command. *)
Class FootprintEnv := {
    enclosing_repo : option EnclosingRepo;
    subprocess_run : list ustr -> Z * string * string;
}.

(** The actions [install_jlcpcb] takes outside the process, in order. *)
Inductive Action :=
  | OpenRepo (path : string)
  | ReadRemoteUrl
  | LogFootprintsDir (msg : string)
  | RunSubprocess (command : list ustr)
  | PrintLine (text : string).

Definition act (a : Action) : M (list Action) unit := modify (fun tr => tr ++ [a]).

Section FootprintInstaller.
Context `{FootprintEnv}.

(** Line 199: the test that guards the [raise]. *)
Definition component_id_invalid (component_id : ustr) : bool :=
  negb (PyUnicode.startswith (code_points "C") component_id)
  || negb (PyUnicode.isdigit (drop 1 component_id)).

Definition install_jlcpcb (component_id : string) : M (list Action) unit :=
  let component_id := PyUnicode.upper component_id in
  if component_id_invalid component_id then
    raise (AtoError (code_points "Component id " ++ component_id
                     ++ code_points " is invalid. Aborting."))
  else
    act (OpenRepo ".");;
    match enclosing_repo with
    | None => raise (InvalidGitRepositoryError ".")
    | Some repo =>
        let top_level_path := working_tree_dir repo in
        act ReadRemoteUrl;;
        match remote_url repo with
        | None => raise (ValueError "Remote named 'origin' didn't exist")
        | Some remote_url =>
            let footprints_dir :=
              if decide (remote_url = "git@gitlab.atopile.io:atopile/modules.git")
              then path_join top_level_path "footprints"
              else path_join top_level_path "elec/footprints/footprints" in
            act (LogFootprintsDir ("Footprints directory: " +:+ footprints_dir));;
            let command :=
              [ code_points "easyeda2kicad";
                code_points "--full";
                code_points "--lcsc_id=" ++ component_id;
                code_points ("--output=" +:+ footprints_dir);
                code_points "--overwrite";
                code_points "--ato";
                code_points ("--ato_file_path=" +:+ path_join top_level_path "elec/src") ] in
            act (RunSubprocess command);;
            let result := subprocess_run command in
            act (PrintLine ("STDOUT: " +:+ result.1.2));;
            act (PrintLine ("STDERR: " +:+ result.2));;
            if result.1.1 =? 0 then act (PrintLine "Command executed successfully")
            else raise (AtoError (code_points "Couldn't install component"))
        end
    end.

End FootprintInstaller.

(** ** [install_dependencies_from_yaml] *)

(** The project configuration that [config.get_project_config_from_path]
    gives: the module directory ([paths.abs_module_path]) and the declared
    dependencies. *)
Record ProjectCfg := {
  cfg_abs_module_path : string;
  cfg_dependencies : list string;
}.

(** [config.get_project_config_from_path], [None] where it raises. *)
Class ProjectConfigFile := {
  get_project_config_from_path : string -> option ProjectCfg;
}.

(** The module directory that [install_dependency] asks the same
    configuration for. *)
#[export] Instance config_paths `{ProjectConfigFile} : ProjectConfig := {|
  abs_module_path := fun top_level_path =>
    cfg_abs_module_path <$> get_project_config_from_path top_level_path;
|}.

Section BulkInstaller.
Context `{VersionLib} `{GitBackend} `{ProjectConfigFile}.

(** The [for module_name in cfg.dependencies] loop. *)
Fixpoint install_each (deps : list string) (top_level_path : string) (upgrade : bool)
    : M State unit :=
  match deps with
  | [] => ret tt
  | module_name :: rest =>
      install_dependency module_name top_level_path upgrade;;
      install_each rest top_level_path upgrade
  end.

Definition install_dependencies_from_yaml (top_level_path : string) (upgrade : bool)
    : M State unit :=
  match get_project_config_from_path top_level_path with
  | None => raise (ConfigError top_level_path)
  | Some cfg => install_each (cfg_dependencies cfg) top_level_path upgrade
  end.

End BulkInstaller.

(** ** [install], the command *)

(** [str(version)], which the command formats a returned version with. *)
Class VersionStr `{VersionLib} := {
  version_str : Version -> string;
}.

(** Everything the command works on: the module working copies, the
    manifests ([ato.yaml], by path) that [set_dependency_to_ato_yaml] reads
    and writes, and the actions taken outside the process.  What a clone or
    the footprint converter writes to disk is not part of [files]. *)
Record Project {FileContent : Type} := {
  modules : State;
  files : gmap string FileContent;
  outside : list Action;
}.
Arguments Project FileContent : clear implicits.

(** An error of the command: one the installers raise, or the
    [AttributeError] of calling [upper] on [None]. *)
Inductive CliError :=
  | Installer (e : Exn)
  | AttributeError (msg : string).

Inductive Exit :=
  | Done
  | Failed (e : CliError).

Section Command.
Context `{VersionLib} `{!VersionStr} `{GitBackend} `{ProjectConfigFile}
        `{YamlLib} `{FootprintEnv}.

(** The truth value of what [install_dependency] returned. *)
Definition value_truthy (v : Value) : bool :=
  match v with
  | VNone => false
  | VRef (RefName name) => PyStr.truthy name
  | VRef (RefTag _) => true
  | VVersion v => version_truthy v
  end.

(** [f"{installed_semver}"] *)
Definition value_str (v : Value) : string :=
  match v with
  | VNone => "None"
  | VRef r => ref_str r
  | VVersion v => version_str v
  end.

(** [log.info("[green]Done![/] :call_me_hand:")], the last line of [install]. *)
Definition done (p : Project FileContent) : Exit * Project FileContent :=
  (Done, {| modules := (emit (LogInfo "[green]Done![/] :call_me_hand:") (modules p)).2;
            files := files p;
            outside := outside p |}).

Definition install (to_install : option string) (jlcpcb upgrade : bool)
    (p : Project FileContent) : Exit * Project FileContent :=
  let p := {| modules := modules p; files := files p;
              outside := outside p ++ [OpenRepo "."] |} in
  match enclosing_repo with
  | None => (Failed (Installer (InvalidGitRepositoryError ".")), p)
  | Some repo =>
      let top_level_path := working_tree_dir repo in
      if jlcpcb then
        match to_install with
        | None => (Failed (AttributeError "'NoneType' object has no attribute 'upper'"), p)
        | Some component_id =>
            match install_jlcpcb component_id (outside p) with
            | (Raise e, trace) =>
                (Failed (Installer e),
                 {| modules := modules p; files := files p; outside := trace |})
            | (Return _, trace) =>
                done {| modules := modules p; files := files p; outside := trace |}
            end
        end
      else if match to_install with Some spec => PyStr.truthy spec | None => false end then
        let to_install := default "" to_install in
        match install_dependency to_install top_level_path upgrade (modules p) with
        | (Raise e, s) =>
            (Failed (Installer e), {| modules := s; files := files p; outside := outside p |})
        | (Return installed_semver, s) =>
            let module_name := (split_module_spec to_install).1 in
            let module_spec := (split_module_spec to_install).2 in
            let to_install :=
              match module_spec with
              | None =>
                  if value_truthy installed_semver
                  then module_name +:+ "^" +:+ value_str installed_semver
                  else to_install
              | Some _ => to_install
              end in
            match set_dependency_to_ato_yaml top_level_path to_install (files p) with
            | (Raise e, fs) =>
                (Failed (Installer e), {| modules := s; files := fs; outside := outside p |})
            | (Return _, fs) =>
                done {| modules := s; files := fs; outside := outside p |}
            end
        end
      else
        match install_dependencies_from_yaml top_level_path upgrade (modules p) with
        | (Raise e, s) =>
            (Failed (Installer e), {| modules := s; files := files p; outside := outside p |})
        | (Return _, s) =>
            done {| modules := s; files := files p; outside := outside p |}
        end
  end.

End Command.

(** ** The properties the specification states, as definitions *)

(** [t] starts at index [i] of [s]. *)
Definition occurs_at (t s : string) (i : nat) : Prop :=
  (i <= String.length s)%nat /\ PyStr.startswith t (PyStr.drop i s) = true.

Definition occurs (t s : string) : Prop := exists i, occurs_at t s i.

(** [i] is the leftmost index at which [t] starts in [s]. *)
Definition leftmost_occurrence (t s : string) (i : nat) : Prop :=
  occurs_at t s i /\ forall j, (j < i)%nat -> ~ occurs_at t s j.

(** The split point as section 4.1 of the specification words it: the
    least index at which any candidate token starts, over all candidates. *)
Definition spec_split_point (candidates : list string) (spec : string) : option Z :=
  foldr (fun t best =>
           let i := PyStr.find t spec in
           if i <? 0 then best
           else match best with
                | Some j => Some (Z.min i j)
                | None => Some i
                end)
        None candidates.

(** The split of section 4.1: at that point, both halves trimmed. *)
Definition spec_split (candidates : list string) (spec : string) : string * option string :=
  match spec_split_point candidates spec with
  | None => (spec, None)
  | Some i => (PyStr.strip (PyStr.slice_to spec i), Some (PyStr.strip (PyStr.slice_from spec i)))
  end.

(** The pattern [^C[0-9]+$] of section 4.6: a capital C, then one or more
    of the ten decimal digits, and nothing else. *)
Definition ascii_digit (c : N) : bool := ((48 <=? c) && (c <=? 57))%N.

Definition matches_component_pattern (component_id : ustr) : bool :=
  match component_id with
  | c :: (_ :: _) as digits => (c =? 67)%N && forallb ascii_digit digits
  | _ => false
  end.

(** A version order as [max] needs it: [>] is a strict total order. *)
Class VersionOrder `{VersionLib} : Prop := {
    version_gt_irrefl : forall v, version_gt v v = false;
    version_gt_trans : forall a b c,
      version_gt a b = true -> version_gt b c = true -> version_gt a c = true;
    version_gt_total : forall a b, a = b \/ version_gt a b = true \/ version_gt b a = true;
}.

(** A YAML library whose dump loads back to the data dumped. *)
Class YamlRoundTrip `{YamlLib} : Prop := {
    load_dump : forall data, yaml_safe_load (yaml_safe_dump data) = Some data;
}.

(** The manifest invariant: at most one entry per package name. *)
Definition one_entry_per_name `{VersionLib} (deps : list string) : Prop :=
  NoDup ((fun x => (split_module_spec x).1) <$> deps).

(** The dependency list stored in the manifest of a project. *)
Definition manifest_dependencies `{YamlLib} (top_level_path : string)
      (files : gmap string FileContent) : list string :=
  match files !! path_join top_level_path "ato.yaml" with
  | Some content => default [] (dependencies (default {| dependencies := None; other_keys := ∅ |}
                                                      (yaml_safe_load content)))
  | None => []
  end.

(** How [install_dependency] gets past line 140 with a working copy [r] at
    [repo]: by cloning it, or by fetching into the one already there. *)
Inductive reaches_selection `{VersionLib} `{GitBackend} `{ProjectConfig}
      (module top_level_path : string) (upgrade : bool) (s : State)
    : string -> Repo -> State -> Prop :=
  | reaches_by_clone modules_path r :
      abs_module_path top_level_path = Some modules_path ->
      let module_name := (split_module_spec module).1 in
      let repo := path_join modules_path module_name in
      let clone_url := "https://gitlab.atopile.io/packages/" +:+ module_name in
      repos s !! repo = None ->
      remote_clone clone_url = Some r ->
      reaches_selection module top_level_path upgrade s repo r
        {| dirs := {[modules_path]} ∪ dirs s;
           repos := <[repo := r]> (repos s);
           events := events s ++ [LogInfo ("Installing dependency " +:+ module_name);
                                  GitClone clone_url repo] |}
  | reaches_by_fetch modules_path r0 r :
      abs_module_path top_level_path = Some modules_path ->
      let module_name := (split_module_spec module).1 in
      let repo := path_join modules_path module_name in
      repos s !! repo = Some r0 ->
      upgrade = true ->
      origin_fetch r0 = Some r ->
      reaches_selection module top_level_path upgrade s repo r
        {| dirs := {[modules_path]} ∪ dirs s;
           repos := <[repo := r]> (repos s);
           events := events s ++ [LogInfo ("Fetching latest changes for " +:+ module_name);
                                  GitFetch repo] |}.

(** The constraint [install_dependency] works with: [*] when the spec gives none. *)
Definition constraint_of `{VersionLib} (module : string) : string :=
  match (split_module_spec module).2 with
  | Some spec => if PyStr.truthy spec then spec else "*"
  | None => "*"
  end.

(** The versions the tags of a working copy parse to. *)
Definition parsed_versions `{VersionLib} (tags : list string) : list Version :=
  omap version_parse tags.

(** The last sentence of claim C8 as it is worded: the appending branch,
    the only one that writes the file, runs exactly when the function
    changed the dependency list. *)
Definition rewritten_exactly_when_changed `{VersionLib} (deps : list string)
      (module_spec : string) : Prop :=
  forall deps' appended,
    update_dependencies deps module_spec = Return (deps', appended) ->
    (appended = true <-> deps' <> deps).

(** A state with more events logged, and nothing else changed. *)
Definition with_events (s : State) (evs : list Event) : State :=
  {| dirs := dirs s; repos := repos s; events := events s ++ evs |}.

(** Every entry of [semver_to_tag] maps a version to a tag of the working
    copy that parses to it. *)
Definition dict_ok `{VersionLib} (tags : list string) (d : list (Version * string)) : Prop :=
  Forall (fun p => version_parse p.2 = Some p.1 /\ p.2 ∈ tags) d.

Definition is_checkout (e : Event) : Prop :=
  match e with
  | GitCheckout _ _ => True
  | _ => False
  end.

Definition is_debug (e : Event) : Prop :=
  match e with
  | LogDebug _ => True
  | _ => False
  end.

(** A computation that only adds actions to the trace. *)
Definition appends_only {A} (c : M (list Action) A) : Prop :=
  forall trace, exists res rest, c trace = (res, trace ++ rest).

(** ** A concrete environment, to run the model on inputs *)

Module Sample.

(** Modelled from the spec: [atopile.version] is not among the sources; the
    specification only says that a Version is a parsed semantic version,
    totally ordered.  A version is the triple major, minor, patch. *)
Definition SemVer : Type := N * N * N.

Fixpoint digits_value (s : string) (acc : N) : option N :=
  match s with
  | EmptyString => Some acc
  | String c s' =>
      let n := N_of_ascii c in
      if ((48 <=? n) && (n <=? 57))%N then digits_value s' (acc * 10 + (n - 48))%N else None
  end.

Definition parse_number (s : string) : option N :=
  match s with
  | EmptyString => None
  | String _ _ => digits_value s 0%N
  end.

Fixpoint split_dots (s cur : string) : list string :=
  match s with
  | EmptyString => [cur]
  | String c s' =>
      if Ascii.eqb c "."%char then cur :: split_dots s' EmptyString
      else split_dots s' (cur +:+ String c EmptyString)
  end.

(** Modelled from the spec: [parse(tag) -> Version|error]; a tag conforms
    when it reads MAJOR.MINOR.PATCH in decimal digits. *)
Definition parse (tag : string) : option SemVer :=
  match split_dots tag EmptyString with
  | [a; b; c] =>
      match parse_number a, parse_number b, parse_number c with
      | Some x, Some y, Some z => Some (x, y, z)
      | _, _, _ => None
      end
  | _ => None
  end.

(** Modelled from the spec: the total order of semantic versions, major
    first, then minor, then patch. *)
Definition gt (a b : SemVer) : bool :=
  let '(a1, a2, a3) := a in
  let '(b1, b2, b3) := b in
  ((b1 <? a1) || ((b1 =? a1) && ((b2 <? a2) || ((b2 =? a2) && (b3 <? a3)))))%N.

Definition ge (a b : SemVer) : bool := negb (gt b a).

(** Modelled from the spec: [match(constraint, version) -> bool], for the
    wildcard and for caret ranges such as [^1.0.0] (at least the base, and
    the same leftmost non-zero component); other constraints match nothing
    here. *)
Definition matches (constraint : string) (v : SemVer) : bool :=
  match constraint with
  | String "*" EmptyString => true
  | String "^" base =>
      match parse base with
      | Some (b1, b2, b3) =>
          let '(v1, v2, v3) := v in
          ge v (b1, b2, b3)
          && (if (0 <? b1)%N then (v1 =? b1)%N
              else if (0 <? b2)%N then (v1 =? 0)%N && (v2 =? b2)%N
              else (v1 =? 0)%N && (v2 =? 0)%N && (v3 =? b3)%N)
      | None => false
      end
  | _ => false
  end.

(** Modelled from the spec: the operator table; the specification names the
    caret and [>=] among the recognized version-constraint operators. *)
Definition operators : list string :=
  ["*"; "^"; "~"; "!"; "=="; ">="; "<="; ">"; "<"].

#[export] Instance version_lib : VersionLib := {|
    Version := SemVer;
    OPERATORS := operators;
    version_parse := parse;
    version_match := matches;
    version_gt := gt;
    version_truthy := fun _ => true;
|}.

(** A project keeps its modules under [.ato/modules]. *)
#[export] Instance project_config : ProjectConfig := {|
    abs_module_path := fun top_level_path => Some (path_join top_level_path ".ato/modules");
|}.

(** A remote that serves [served] for every package; fetching brings the
    remote's tags; checking out moves the head to the commit named. *)
Definition git_backend (served : option Repo) : GitBackend := {|
    remote_clone := fun _ => served;
    origin_fetch := fun r =>
      match served with
      | Some remote => Some {| repo_tags := repo_tags remote; repo_dirty := repo_dirty r;
                               repo_head := repo_head r; repo_worktree := repo_worktree r |}
      | None => None
      end;
    git_checkout := fun ref r =>
      Some {| repo_tags := repo_tags r; repo_dirty := repo_dirty r;
              repo_head := ref; repo_worktree := repo_worktree r |};
|}.

(** The manifest stored as its data. *)
#[export] Instance yaml_lib : YamlLib := {|
    FileContent := AtoYaml;
    yaml_safe_load := Some;
    yaml_safe_dump := fun data => data;
|}.

(** A project cloned from its own remote, and a converter that succeeds. *)
#[export] Instance footprint_env : FootprintEnv := {|
    enclosing_repo := Some {| working_tree_dir := "/proj";
                              remote_url := Some "git@example.org:me/proj.git" |};
    subprocess_run := fun _ => (0, "ok", "");
|}.

Definition repo_with (tags : list string) (dirty : bool) : Repo := {|
    repo_tags := tags;
    repo_dirty := dirty;
    repo_head := "main";
    repo_worktree := {[ "README.md" := "hello" ]};
|}.

Definition empty_state : State := {| dirs := ∅; repos := ∅; events := [] |}.

Definition state_with (path : string) (r : Repo) : State :=
  {| dirs := {[ "/proj/.ato/modules" ]}; repos := {[ path := r ]}; events := [] |}.

Definition manifest (deps : list string) : gmap string AtoYaml :=
  {[ "/proj/ato.yaml" := {| dependencies := Some deps; other_keys := ∅ |} ]}.

(** SUPERSCRIPT TWO, U+00B2, and the component id made of a capital C
    followed by it. *)
Definition superscript_two : ascii := ascii_of_N 178.

Definition c_superscript_two : string := String "C"%char (String superscript_two EmptyString).

(** A remote whose tags are three releases; one with a tag that is no
    version; a working copy with local changes. *)
Definition released : Repo := repo_with ["1.0.0"; "1.2.0"; "2.0.0"] false.

Definition untagged : Repo := repo_with ["latest"] false.

Definition edited : Repo := repo_with ["1.0.0"] true.

Definition pkg_path : string := "/proj/.ato/modules/pkg".

End Sample.

(** The directory [install_jlcpcb] sends the footprints to (lines 210-213). *)
Definition footprints_dir_for (top_level_path remote_url : string) : string :=
  if decide (remote_url = "git@gitlab.atopile.io:atopile/modules.git")
  then path_join top_level_path "footprints"
  else path_join top_level_path "elec/footprints/footprints".

(** The command line of lines 217-225 for an uppercased component id. *)
Definition converter_command (top_level_path remote_url : string) (component_id : ustr)
    : list ustr :=
  [ code_points "easyeda2kicad";
    code_points "--full";
    code_points "--lcsc_id=" ++ component_id;
    code_points ("--output=" +:+ footprints_dir_for top_level_path remote_url);
    code_points "--overwrite";
    code_points "--ato";
    code_points ("--ato_file_path=" +:+ path_join top_level_path "elec/src") ].

Definition is_subprocess (a : Action) : Prop :=
  match a with
  | RunSubprocess _ => True
  | _ => False
  end.

(** ** A concrete project, to run the command on inputs *)

Module SampleProject.

(** A configuration that keeps the modules under [.ato/modules] and
    declares [deps]. *)
Definition config_file (deps : list string) : ProjectConfigFile := {|
  get_project_config_from_path := fun top_level_path =>
    Some {| cfg_abs_module_path := path_join top_level_path ".ato/modules";
            cfg_dependencies := deps |};
|}.

Definition number_str (n : N) : string :=
  DecimalString.NilZero.string_of_uint (N.to_uint n).

(** Modelled from the spec: a semantic version prints as MAJOR.MINOR.PATCH. *)
#[export] Instance version_printer : @VersionStr Sample.version_lib :=
  @Build_VersionStr Sample.version_lib
    (fun v : Sample.SemVer =>
       number_str v.1.1 +:+ "." +:+ number_str v.1.2 +:+ "." +:+ number_str v.2).

Definition project (s : State) (deps : list string) : Project AtoYaml := {|
  modules := s;
  files := Sample.manifest deps;
  outside := [];
|}.

(** A state where [pkg] and [other] are both installed. *)
Definition two_installed : State := {|
  dirs := {[ "/proj/.ato/modules" ]};
  repos := {[ "/proj/.ato/modules/pkg" := Sample.released;
              "/proj/.ato/modules/other" := Sample.edited ]};
  events := [];
|}.

(** The command in the sample environment: a remote that serves [served],
    a configuration that declares [deps]. *)
Definition run_install (served : option Repo) (deps : list string)
    : option string -> bool -> bool -> Project AtoYaml -> Exit * Project AtoYaml :=
  install (H := Sample.version_lib) (H0 := version_printer)
    (H1 := Sample.git_backend served) (H2 := config_file deps)
    (H3 := Sample.yaml_lib) (H4 := Sample.footprint_env).

End SampleProject.

(** * Properties *)

(** ** Python [str] primitives *)

Lemma len_length (s : string) : PyStr.len s = Z.of_nat (String.length s).
Proof.
  induction s as [|c s IH]; simpl; [reflexivity|].
  rewrite IH. lia.
Qed.

Lemma occurs_at_0 (t s : string) : occurs_at t s 0 <-> PyStr.startswith t s = true.
Proof.
  unfold occurs_at. simpl. split; [intros [_ ?]; assumption|].
  intros; split; [lia | assumption].
Qed.

Lemma occurs_at_S (t : string) (c : ascii) (s : string) (i : nat) :
  occurs_at t (String c s) (S i) <-> occurs_at t s i.
Proof. unfold occurs_at. simpl. split; intros [? ?]; split; (lia || assumption). Qed.

(** [find] and [in] against the positions at which a token starts: either
    the token starts nowhere, and [find] gives [-1], or [find] gives its
    leftmost start. *)
Lemma find_from_spec (t s : string) (k : Z) :
  (PyStr.contains t s = false /\ PyStr.find_from t s k = -1 /\ ~ occurs t s)
  \/ (PyStr.contains t s = true
      /\ exists i, PyStr.find_from t s k = k + Z.of_nat i /\ leftmost_occurrence t s i).
Proof.
  revert k. induction s as [|c s IH]; intros k; simpl.
  - destruct (PyStr.startswith t "") eqn:E.
    + right. split; [reflexivity|]. exists 0%nat. split; [lia|].
      split; [apply occurs_at_0; exact E | intros j Hj; lia].
    + left. repeat split. intros [i [Hi Hs]]. simpl in Hi.
      assert (i = 0%nat) as -> by lia. simpl in Hs. congruence.
  - destruct (PyStr.startswith t (String c s)) eqn:E.
    + right. split; [reflexivity|]. exists 0%nat. split; [lia|].
      split; [apply occurs_at_0; exact E | intros j Hj; lia].
    + destruct (IH (k + 1)) as [(Hc & Hf & Hn) | (Hc & i & Hf & Ho & Hl)].
      * left. repeat split; [assumption..|]. intros [[|i] Hi].
        -- apply occurs_at_0 in Hi. congruence.
        -- apply occurs_at_S in Hi. apply Hn. exists i. exact Hi.
      * right. split; [assumption|]. exists (S i). split; [lia|]. split.
        -- apply occurs_at_S. exact Ho.
        -- intros [|j] Hj Hocc.
           ++ apply occurs_at_0 in Hocc. congruence.
           ++ apply occurs_at_S in Hocc. apply (Hl j); [lia | exact Hocc].
Qed.

Lemma contains_false_not_occurs (t s : string) :
  PyStr.contains t s = false -> ~ occurs t s.
Proof.
  intros Hc. destruct (find_from_spec t s 0) as [(_ & _ & Hn) | (Hc' & _)];
    [exact Hn | congruence].
Qed.

Lemma not_occurs_contains_false (t s : string) :
  ~ occurs t s -> PyStr.contains t s = false.
Proof.
  intros Hn. destruct (find_from_spec t s 0) as [(Hc & _) | (_ & i & _ & Ho & _)];
    [exact Hc | exfalso; apply Hn; exists i; exact Ho].
Qed.

Lemma leftmost_occurrence_unique (t s : string) (i j : nat) :
  leftmost_occurrence t s i -> leftmost_occurrence t s j -> i = j.
Proof.
  intros [Hi Hli] [Hj Hlj].
  destruct (Nat.lt_trichotomy i j) as [Hlt | [Heq | Hgt]]; [|exact Heq|].
  - exfalso. exact (Hlj i Hlt Hi).
  - exfalso. exact (Hli j Hgt Hj).
Qed.

Lemma find_leftmost (t s : string) (i : nat) :
  leftmost_occurrence t s i ->
  PyStr.contains t s = true /\ PyStr.find t s = Z.of_nat i.
Proof.
  intros Hl. unfold PyStr.find.
  destruct (find_from_spec t s 0) as [(_ & _ & Hn) | (Hc & j & Hf & Hj)].
  - exfalso. apply Hn. exists i. apply Hl.
  - split; [exact Hc|]. rewrite Hf. rewrite (leftmost_occurrence_unique _ _ _ _ Hl Hj). lia.
Qed.

Lemma leftmost_of_find (t s : string) (i : nat) :
  PyStr.find t s = Z.of_nat i -> leftmost_occurrence t s i.
Proof.
  unfold PyStr.find. intros Hf.
  destruct (find_from_spec t s 0) as [(_ & Hm & _) | (_ & j & Hj & Hl)].
  - lia.
  - assert (i = j) as -> by lia. exact Hl.
Qed.

Lemma slice_at_occurrence (s : string) (i : nat) :
  (i <= String.length s)%nat ->
  PyStr.slice_to s (Z.of_nat i) = PyStr.take i s
  /\ PyStr.slice_from s (Z.of_nat i) = PyStr.drop i s.
Proof.
  intros Hi. unfold PyStr.slice_to, PyStr.slice_from, PyStr.slice_index.
  rewrite len_length.
  destruct (Z.of_nat i <? 0) eqn:E; [apply Z.ltb_lt in E; lia|].
  replace (Z.to_nat (Z.min (Z.of_nat i) (Z.of_nat (String.length s)))) with i by lia.
  split; reflexivity.
Qed.

(** ** [split_module_spec] *)

Section SplitModuleSpecProperties.
Context `{VersionLib}.

Lemma split_loop_none (cands : list string) (spec : string) :
  (forall t, t ∈ cands -> ~ occurs t spec) -> split_loop cands spec = (spec, None).
Proof.
  induction cands as [|t cands IH]; intros Hn; simpl; [reflexivity|].
  rewrite (not_occurs_contains_false t spec) by (apply Hn; left).
  apply IH. intros u Hu. apply Hn. right. exact Hu.
Qed.

Lemma split_loop_first (pre : list string) (t : string) (post : list string)
    (spec : string) (i : nat) :
  (forall u, u ∈ pre -> ~ occurs u spec) ->
  leftmost_occurrence t spec i ->
  split_loop (pre ++ t :: post) spec
  = (PyStr.strip (PyStr.take i spec), Some (PyStr.strip (PyStr.drop i spec))).
Proof.
  intros Hpre Hl. induction pre as [|u pre IH]; simpl.
  - destruct (find_leftmost t spec i Hl) as [-> ->].
    destruct (Z.of_nat i <? 0) eqn:E; [apply Z.ltb_lt in E; lia|].
    destruct (slice_at_occurrence spec i) as [-> ->]; [apply Hl | reflexivity].
  - rewrite (not_occurs_contains_false u spec) by (apply Hpre; left).
    apply IH. intros v Hv. apply Hpre. right. exact Hv.
Qed.

(** C3 (as amended): [split_module_spec] tries the candidate tokens in
    precedence order -- the operators of [version.OPERATORS] in table order,
    then the space, then the at sign -- and splits at the leftmost
    occurrence of the first candidate that occurs in the string at all: the
    trimmed text before that point is the name, the trimmed text from it on
    is the constraint.  When no candidate occurs the result is the whole
    string and [None]. *)
Theorem split_module_spec_first_candidate (spec : string) :
  ((forall t, t ∈ splitters -> ~ occurs t spec) ->
   split_module_spec spec = (spec, None))
  /\ (forall pre t post i,
        splitters = pre ++ t :: post ->
        (forall u, u ∈ pre -> ~ occurs u spec) ->
        leftmost_occurrence t spec i ->
        split_module_spec spec
        = (PyStr.strip (PyStr.take i spec), Some (PyStr.strip (PyStr.drop i spec)))).
Proof.
  split.
  - intros Hn. apply split_loop_none. exact Hn.
  - intros pre t post i Hs Hpre Hl. unfold split_module_spec. rewrite Hs.
    apply split_loop_first; assumption.
Qed.

(** X4: the test [splitter_loc < 0] after [splitter in spec] never holds:
    a splitter that is in the string has a non-negative [find]. *)
Lemma find_nonneg_when_contained (t s : string) :
  PyStr.contains t s = true -> 0 <= PyStr.find t s.
Proof.
  intros Hc. unfold PyStr.find.
  destruct (find_from_spec t s 0) as [(Hc' & _) | (_ & i & -> & _)]; [congruence | lia].
Qed.

End SplitModuleSpecProperties.

(** Discharges [forall u, u ∈ l -> ~ occurs u s] for a concrete list and string. *)
Ltac tokens_absent :=
  let u := fresh "u" in
  let Hu := fresh "Hu" in
  intros u Hu;
  repeat (apply elem_of_cons in Hu as [-> | Hu];
          [apply contains_false_not_occurs; vm_compute; reflexivity|]);
  apply elem_of_nil in Hu; destruct Hu.

(** The three splits the specification lists, with the sample operator table. *)
Lemma split_module_spec_examples :
  split_module_spec (H := Sample.version_lib) "name@1.2.3" = ("name", Some "@1.2.3")
  /\ split_module_spec (H := Sample.version_lib) "name>=1.0" = ("name", Some ">=1.0")
  /\ split_module_spec (H := Sample.version_lib) "name" = ("name", None).
Proof.
  split; [|split].
  - apply (proj2 (split_module_spec_first_candidate (H := Sample.version_lib) "name@1.2.3")
             (Sample.operators ++ [" "]) "@" [] 4%nat).
    + reflexivity.
    + tokens_absent.
    + apply leftmost_of_find. vm_compute. reflexivity.
  - apply (proj2 (split_module_spec_first_candidate (H := Sample.version_lib) "name>=1.0")
             ["*"; "^"; "~"; "!"; "=="] ">=" ["<="; ">"; "<"; " "; "@"] 4%nat).
    + reflexivity.
    + tokens_absent.
    + apply leftmost_of_find. vm_compute. reflexivity.
  - apply (proj1 (split_module_spec_first_candidate (H := Sample.version_lib) "name")).
    tokens_absent.
Defined.

(** C3, the claim as stated, fails: in [pkg@release candidate] the at sign
    occurs at index 3 and the space at index 11; the code tries the space
    before the at sign and splits at the space, where the leftmost candidate
    is the at sign. *)
Lemma split_module_spec_not_leftmost :
  split_module_spec (H := Sample.version_lib) "pkg@release candidate"
    = ("pkg@release", Some "candidate")
  /\ spec_split (splitters (H := Sample.version_lib)) "pkg@release candidate"
    = ("pkg", Some "@release candidate").
Proof. split; vm_compute; reflexivity. Qed.

(** The same split for every operator table none of whose operators occurs
    in the string: only the order of the space and the at sign matters. *)
Lemma split_space_before_at `{VersionLib} :
  (forall op, op ∈ OPERATORS -> ~ occurs op "pkg@release candidate") ->
  split_module_spec "pkg@release candidate" = ("pkg@release", Some "candidate")
  /\ spec_split splitters "pkg@release candidate" <> split_module_spec "pkg@release candidate".
Proof.
  intros Hops.
  assert (split_module_spec "pkg@release candidate" = ("pkg@release", Some "candidate")) as Hs.
  { unfold split_module_spec, splitters.
    rewrite (split_loop_first OPERATORS " " ["@"] _ 11%nat Hops).
    - reflexivity.
    - apply leftmost_of_find. vm_compute. reflexivity. }
  split; [exact Hs|]. rewrite Hs. unfold spec_split, splitters.
  assert (forall ops : list string,
             (forall op, op ∈ ops -> ~ occurs op "pkg@release candidate") ->
             spec_split_point (ops ++ [" "; "@"]) "pkg@release candidate" = Some 3) as Hp.
  { induction ops as [|op ops IH]; intros Hn; [vm_compute; reflexivity|].
    change (spec_split_point ((op :: ops) ++ [" "; "@"]) "pkg@release candidate")
      with (let i := PyStr.find op "pkg@release candidate" in
            if i <? 0 then spec_split_point (ops ++ [" "; "@"]) "pkg@release candidate"
            else match spec_split_point (ops ++ [" "; "@"]) "pkg@release candidate" with
                 | Some j => Some (Z.min i j)
                 | None => Some i
                 end).
    cbv zeta. unfold PyStr.find.
    destruct (find_from_spec op "pkg@release candidate" 0) as [(_ & -> & _) | (_ & i & _ & Ho & _)].
    - simpl (_ <? _). apply IH. intros o Ho. apply Hn. right. exact Ho.
    - exfalso. apply (Hn op); [left | exists i; exact Ho]. }
  rewrite (Hp OPERATORS Hops). vm_compute. intros E. discriminate E.
Qed.

(** ** [set_dependency_to_ato_yaml] *)

Lemma list_remove_split (x : string) (l : list string) :
  x ∈ l ->
  exists l1 l2, l = l1 ++ x :: l2 /\ (x ∉ l1) /\ list_remove x l = Some (l1 ++ l2).
Proof.
  induction l as [|y l IH]; intros Hx; [by apply elem_of_nil in Hx|].
  simpl. destruct (decide (y = x)) as [->|Hne].
  - exists [], l. repeat split. apply not_elem_of_nil.
  - apply elem_of_cons in Hx as [->|Hx]; [done|].
    destruct (IH Hx) as (l1 & l2 & -> & Hn & ->).
    exists (y :: l1), l2. repeat split.
    intros [E|Hin]%elem_of_cons; [by subst | by apply Hn].
Qed.

Lemma filter_unique_by_key {A} (f : A -> string) (l : list A) (x : A) :
  NoDup (f <$> l) -> x ∈ l -> filter (fun y => f y = f x) l = [x].
Proof.
  induction l as [|y l IH]; intros Hnd Hx; [by apply elem_of_nil in Hx|].
  rewrite fmap_cons in Hnd. apply NoDup_cons in Hnd as [Hy Hnd].
  assert (forall z, z ∈ l -> f z ∈ f <$> l) as Hin.
  { intros z Hz. apply list_elem_of_fmap. exists z. done. }
  apply elem_of_cons in Hx as [<-|Hx].
  - rewrite filter_cons_True by done. f_equal.
    destruct (filter (fun y => f y = f x) l) as [|z k] eqn:E; [done|].
    assert (z ∈ filter (fun y => f y = f x) l) as Hz by (rewrite E; left).
    apply list_elem_of_filter in Hz as [Hfz Hz].
    exfalso. apply Hy. rewrite <- Hfz. by apply Hin.
  - rewrite filter_cons_False.
    + by apply IH.
    + intros Hfy. apply Hy. rewrite Hfy. by apply Hin.
Qed.

Section ManifestEditorProperties.
Context `{VersionLib} `{YamlLib}.

Local Abbreviation name_of := (fun x : string => (split_module_spec x).1).

Lemma dependencies_by_name_lookup (deps : list string) (n : string) :
  dependencies_by_name deps !! n = last (filter (fun x => name_of x = n) deps).
Proof.
  induction deps as [|x deps IH] using rev_ind; [reflexivity|].
  unfold dependencies_by_name in *. rewrite foldl_app. simpl.
  rewrite filter_app. destruct (decide (name_of x = n)) as [E|E].
  - rewrite <- E at 1. rewrite lookup_insert_eq.
    rewrite (filter_cons_True _ x []) by exact E. rewrite filter_nil.
    by rewrite last_snoc.
  - rewrite lookup_insert_ne by exact E.
    rewrite (filter_cons_False _ x []) by exact E. rewrite filter_nil, app_nil_r.
    exact IH.
Qed.

Lemma dependencies_by_name_Some (deps : list string) (n e : string) :
  dependencies_by_name deps !! n = Some e -> e ∈ deps /\ name_of e = n.
Proof.
  rewrite dependencies_by_name_lookup. intros Hl.
  assert (e ∈ filter (fun x => name_of x = n) deps) as Hin.
  { destruct (filter _ deps) as [|a l] using rev_ind; [discriminate|].
    rewrite last_snoc in Hl. injection Hl as ->. apply elem_of_app. right. left. }
  apply list_elem_of_filter in Hin as [? ?]. done.
Qed.

Lemma dependencies_by_name_None (deps : list string) (n x : string) :
  dependencies_by_name deps !! n = None -> x ∈ deps -> name_of x <> n.
Proof.
  rewrite dependencies_by_name_lookup. intros Hl Hx E.
  assert (x ∈ filter (fun x => name_of x = n) deps) as Hin by (by apply list_elem_of_filter).
  destruct (filter _ deps) as [|a l] using rev_ind; [by apply elem_of_nil in Hin|].
  by rewrite last_snoc in Hl.
Qed.

Lemma dependencies_by_name_unique (deps : list string) (x : string) :
  one_entry_per_name deps -> x ∈ deps ->
  dependencies_by_name deps !! name_of x = Some x.
Proof.
  intros Hinv Hx. rewrite dependencies_by_name_lookup.
  by rewrite (filter_unique_by_key name_of deps x Hinv Hx).
Qed.

(** What lines 91-98 do to the list, case by case; they never raise. *)
Lemma update_dependencies_cases (deps : list string) (module_spec : string) :
  (module_spec ∈ deps
   /\ exists deps', update_dependencies deps module_spec = Return (deps', false)
        /\ module_spec ∈ deps'
        /\ (one_entry_per_name deps -> deps' = deps))
  \/ ((module_spec ∉ deps)
      /\ exists kept, update_dependencies deps module_spec = Return (kept ++ [module_spec], true)
           /\ ((kept = deps /\ forall x, x ∈ deps -> name_of x <> name_of module_spec)
               \/ exists old l1 l2, deps = l1 ++ old :: l2 /\ kept = l1 ++ l2
                    /\ list_remove old deps = Some kept
                    /\ name_of old = name_of module_spec /\ old <> module_spec)).
Proof.
  unfold update_dependencies.
  destruct (dependencies_by_name deps !! (split_module_spec module_spec).1) as [e|] eqn:Hl.
  - destruct (dependencies_by_name_Some _ _ _ Hl) as [He Hname].
    destruct (decide (e = module_spec)) as [->|Hne].
    + left. split; [exact He|]. exists deps.
      destruct (decide (module_spec ∈ deps)); [|done]. done.
    + destruct (list_remove_split e deps He) as (l1 & l2 & Hd & Hn1 & Hr). rewrite Hr.
      destruct (decide (module_spec ∈ l1 ++ l2)) as [Hin|Hnin].
      * left. assert (module_spec ∈ deps) as Hin'.
        { rewrite Hd. apply elem_of_app in Hin as [?|?];
            apply elem_of_app; [left | right; right]; done. }
        split; [exact Hin'|]. exists (l1 ++ l2). repeat split; [exact Hin|].
        intros Hinv. exfalso. apply Hne.
        pose proof (dependencies_by_name_unique deps module_spec Hinv Hin') as Hu.
        simpl in Hu. rewrite Hl in Hu. by injection Hu.
      * right. split.
        { rewrite Hd. intros [Hin|Hin]%elem_of_app; apply Hnin, elem_of_app.
          - by left.
          - apply elem_of_cons in Hin as [->|Hin]; [done | by right]. }
        exists (l1 ++ l2). split; [reflexivity|]. right.
        exists e, l1, l2. rewrite <- Hd. done.
  - destruct (decide (module_spec ∈ deps)) as [Hin|Hnin].
    + exfalso. by apply (dependencies_by_name_None _ _ _ Hl Hin).
    + right. split; [exact Hnin|]. exists deps. split; [reflexivity|]. left.
      split; [reflexivity|]. intros x Hx. by apply (dependencies_by_name_None _ _ _ Hl).
Qed.


Lemma set_dependency_run (top_level_path module_spec : string)
    (files : gmap string FileContent) (content : FileContent)
    (deps' : list string) (appended : bool) :
  files !! path_join top_level_path "ato.yaml" = Some content ->
  update_dependencies (manifest_dependencies top_level_path files) module_spec
    = Return (deps', appended) ->
  set_dependency_to_ato_yaml top_level_path module_spec files
  = (Return tt,
     if appended then
       <[path_join top_level_path "ato.yaml" :=
           yaml_safe_dump {| dependencies := Some deps';
                             other_keys := other_keys (default empty_yaml
                                                         (yaml_safe_load content)) |}]> files
     else files).
Proof.
  intros Hf Hu. unfold manifest_dependencies in Hu. rewrite Hf in Hu.
  unfold set_dependency_to_ato_yaml, bind, get. rewrite Hf.
  unfold empty_yaml in *. rewrite Hu. by destruct appended.
Qed.

End ManifestEditorProperties.

Section ManifestEditorTheorems.
Context `{VersionLib} `{YamlLib} `{!YamlRoundTrip}.

Local Abbreviation name_of := (fun x : string => (split_module_spec x).1).

Lemma manifest_dependencies_written (top_level_path : string)
    (files : gmap string FileContent) (deps : list string) (others : gmap string string) :
  manifest_dependencies top_level_path
    (<[path_join top_level_path "ato.yaml" :=
         yaml_safe_dump {| dependencies := Some deps; other_keys := others |}]> files)
  = deps.
Proof.
  unfold manifest_dependencies. rewrite lookup_insert_eq, load_dump. reflexivity.
Qed.




(** C8 (as amended): re-adding a spec that is already in the list verbatim
    leaves the stored manifest as it is, for every manifest; the file is
    written exactly when the spec was not yet in the list (the appending
    branch), so a write always goes with a changed list; on a manifest with
    at most one entry per name the list changes only with a write; and a
    second call with the same spec writes nothing. *)
Theorem set_dependency_writes_on_append (top_level_path module_spec : string)
    (files : gmap string FileContent) (content : FileContent) :
  files !! path_join top_level_path "ato.yaml" = Some content ->
  let deps := manifest_dependencies top_level_path files in
  (module_spec ∈ deps ->
   set_dependency_to_ato_yaml top_level_path module_spec files = (Return tt, files))
  /\ (exists deps' appended files',
        update_dependencies deps module_spec = Return (deps', appended)
        /\ set_dependency_to_ato_yaml top_level_path module_spec files = (Return tt, files')
        /\ (appended = true <-> module_spec ∉ deps)
        /\ (appended = false -> files' = files)
        /\ (appended = true ->
            manifest_dependencies top_level_path files' = deps' /\ deps' <> deps)
        /\ (one_entry_per_name deps -> deps' <> deps -> appended = true)
        /\ set_dependency_to_ato_yaml top_level_path module_spec files' = (Return tt, files')).
Proof.
  intros Hf deps.
  assert (forall fs c, fs !! path_join top_level_path "ato.yaml" = Some c ->
            module_spec ∈ manifest_dependencies top_level_path fs ->
            set_dependency_to_ato_yaml top_level_path module_spec fs = (Return tt, fs)) as Hnoop.
  { intros fs c Hc Hin.
    destruct (update_dependencies_cases (manifest_dependencies top_level_path fs) module_spec)
      as [(_ & d & Hu & _) | (Hnin & _)]; [|done].
    by rewrite (set_dependency_run _ _ _ _ _ _ Hc Hu). }
  split; [intros Hin; by apply (Hnoop files content)|].
  destruct (update_dependencies_cases deps module_spec)
    as [(Hin & d & Hu & Hin' & Hsame) | (Hnin & kept & Hu & Hk)].
  - exists d, false, files. split; [exact Hu|].
    split; [by apply (Hnoop files content)|].
    split; [split; [discriminate | done]|].
    split; [done|]. split; [discriminate|].
    split; [intros Hinv Hd; exfalso; by apply Hd, Hsame|].
    by apply (Hnoop files content).
  - eexists (kept ++ [module_spec]), true, _. split; [exact Hu|].
    split; [exact (set_dependency_run _ _ _ _ _ _ Hf Hu)|].
    split; [done|]. split; [discriminate|].
    split; [|split; [done|]].
    + intros _. split; [apply manifest_dependencies_written|].
      intros E. apply Hnin. fold deps. rewrite <- E. apply elem_of_app. right. left.
    + eapply Hnoop; [apply lookup_insert_eq|].
      rewrite manifest_dependencies_written. apply elem_of_app. right. left.
Qed.

End ManifestEditorTheorems.

Lemma sample_yaml_round_trip : YamlRoundTrip (H := Sample.yaml_lib).
Proof. split. intros data. reflexivity. Qed.


(** Adding [pkg^2.0.0] to a manifest that lists [pkg^1.0.0]: one write, and
    a second call that writes nothing. *)
Lemma set_dependency_replaces_pkg :
  exists deps' appended files',
    update_dependencies (H := Sample.version_lib) ["pkg^1.0.0"] "pkg^2.0.0"
      = Return (deps', appended)
    /\ set_dependency_to_ato_yaml (H := Sample.version_lib) (H0 := Sample.yaml_lib)
         "/proj" "pkg^2.0.0" (Sample.manifest ["pkg^1.0.0"]) = (Return tt, files')
    /\ appended = true
    /\ set_dependency_to_ato_yaml (H := Sample.version_lib) (H0 := Sample.yaml_lib)
         "/proj" "pkg^2.0.0" files' = (Return tt, files').
Proof.
  destruct (set_dependency_writes_on_append
              (H := Sample.version_lib) (H0 := Sample.yaml_lib)
              (H1 := sample_yaml_round_trip)
              "/proj" "pkg^2.0.0" (Sample.manifest ["pkg^1.0.0"])
              {| dependencies := Some ["pkg^1.0.0"]; other_keys := ∅ |})
    as (_ & deps' & appended & files' & Hu & Hr & Happ & _ & _ & _ & Hagain).
  - vm_compute. reflexivity.
  - exists deps', appended, files'. split; [exact Hu|]. split; [exact Hr|].
    split; [|exact Hagain].
    apply Happ. apply (bool_decide_unpack _). vm_compute. exact I.
Defined.

(** C8, the claim as stated, fails on a manifest that lists one name twice:
    re-adding [pkg^1.0.0] to the list [pkg^1.0.0], [pkg^2.0.0] removes
    [pkg^2.0.0] from the list in memory, finds [pkg^1.0.0] still present and
    so neither appends nor writes: the list changed and the file was not
    rewritten. *)
Lemma set_dependency_changed_not_written :
  update_dependencies (H := Sample.version_lib) ["pkg^1.0.0"; "pkg^2.0.0"] "pkg^1.0.0"
    = Return (["pkg^1.0.0"], false)
  /\ set_dependency_to_ato_yaml (H := Sample.version_lib) (H0 := Sample.yaml_lib)
       "/proj" "pkg^1.0.0" (Sample.manifest ["pkg^1.0.0"; "pkg^2.0.0"])
     = (Return tt, Sample.manifest ["pkg^1.0.0"; "pkg^2.0.0"])
  /\ ~ rewritten_exactly_when_changed (H := Sample.version_lib)
         ["pkg^1.0.0"; "pkg^2.0.0"] "pkg^1.0.0".
Proof.
  assert (update_dependencies (H := Sample.version_lib) ["pkg^1.0.0"; "pkg^2.0.0"] "pkg^1.0.0"
          = Return (["pkg^1.0.0"], false)) as Hu by (vm_compute; reflexivity).
  split; [exact Hu|]. split; [vm_compute; reflexivity|].
  intros Hclaim. destruct (Hclaim _ _ Hu) as [_ Hback].
  assert (false = true) as E by (apply Hback; intros E; discriminate E).
  discriminate E.
Qed.

(** ** [install_dependency] *)

Lemma with_events_nil (s : State) : with_events s [] = s.
Proof. destruct s. unfold with_events. simpl. by rewrite app_nil_r. Qed.

Lemma with_events_app (s : State) (evs1 evs2 : list Event) :
  with_events (with_events s evs1) evs2 = with_events s (evs1 ++ evs2).
Proof. unfold with_events. simpl. by rewrite app_assoc. Qed.

Lemma emit_run {A} (e : Event) (k : M State A) (s : State) :
  (emit e ;; k) s = k (with_events s [e]).
Proof. reflexivity. Qed.

Section RepositoryResolverProperties.
Context `{VersionLib} `{GitBackend} `{ProjectConfig}.

Lemma dict_set_keys (k : Version) (t : string) (d : list (Version * string)) (v : Version) :
  v ∈ (dict_set k t d).*1 <-> v = k \/ v ∈ d.*1.
Proof.
  induction d as [|[k' t'] d IH]; simpl.
  - rewrite list_elem_of_singleton. split; [by left | intros [?|?%elem_of_nil]; done].
  - destruct (decide (k' = k)) as [->|Hne]; simpl.
    + rewrite elem_of_cons. tauto.
    + rewrite !elem_of_cons, IH. tauto.
Qed.

Lemma dict_set_ok (tags : list string) (k : Version) (t : string) (d : list (Version * string)) :
  dict_ok tags d -> version_parse t = Some k -> t ∈ tags -> dict_ok tags (dict_set k t d).
Proof.
  intros Hd Hp Ht. induction d as [|[k' t'] d IH]; simpl.
  - by repeat constructor.
  - apply Forall_cons in Hd as [Hhd Htl].
    destruct (decide (k' = k)) as [->|Hne]; constructor; try done. by apply IH.
Qed.

Lemma dict_get_ok (tags : list string) (k : Version) (t : string) (d : list (Version * string)) :
  dict_ok tags d -> dict_get k d = Some t -> version_parse t = Some k /\ t ∈ tags.
Proof.
  intros Hd. induction d as [|[k' t'] d IH]; simpl; [discriminate|].
  apply Forall_cons in Hd as [Hhd Htl].
  destruct (decide (k' = k)) as [->|Hne]; [|by apply IH].
  intros [= <-]. exact Hhd.
Qed.

Lemma dict_get_is_Some (k : Version) (d : list (Version * string)) :
  k ∈ d.*1 -> exists t, dict_get k d = Some t.
Proof.
  induction d as [|[k' t'] d IH]; simpl; [by intros ?%elem_of_nil|].
  destruct (decide (k' = k)) as [->|Hne]; [by eexists|].
  intros [?|?]%elem_of_cons; [done | by apply IH].
Qed.

(** The tag loop logs a debug line per tag that does not parse, touches
    nothing else, and leaves exactly the parsed versions as keys. *)
Lemma parse_tags_run (all tags : list string) (d : list (Version * string)) (s : State) :
  dict_ok all d -> tags ⊆ all ->
  exists d' evs,
    parse_tags tags d s = (Return d', with_events s evs)
    /\ dict_ok all d'
    /\ (forall v, v ∈ d'.*1 <-> v ∈ d.*1 \/ v ∈ parsed_versions tags)
    /\ Forall is_debug evs.
Proof.
  revert d s. induction tags as [|tag tags IH]; intros d s Hd Hsub; simpl.
  - exists d, []. rewrite with_events_nil. repeat split; try done.
    + by left.
    + by intros [?|?%elem_of_nil].
  - assert (tags ⊆ all) as Hsub' by (intros x Hx; apply Hsub; by right).
    unfold parsed_versions. simpl. destruct (version_parse tag) as [v|] eqn:Hp; simpl.
    + destruct (IH (dict_set v tag d) s) as (d' & evs & Hr & Hok & Hkeys & Hdbg);
        [apply dict_set_ok; try done; apply Hsub; left | done |].
      exists d', evs. repeat split; try done.
      * intros Hv. apply Hkeys in Hv as [Hv|Hv]; [|right; by right].
        apply dict_set_keys in Hv as [->|Hv]; [right; left | by left].
      * intros [Hv|Hv]; apply Hkeys.
        -- left. apply dict_set_keys. by right.
        -- apply elem_of_cons in Hv as [->|Hv]; [|by right].
           left. apply dict_set_keys. by left.
    + rewrite emit_run.
      destruct (IH d (with_events s [LogDebug ("Tag " +:+ tag +:+ " is not a valid semver tag. Skipping.")]))
        as (d' & evs & Hr & Hok & Hkeys & Hdbg); [done | done |].
      eexists d', (_ :: evs). rewrite Hr, with_events_app. repeat split; try done.
      * apply Hkeys.
      * apply Hkeys.
      * by constructor.
Qed.

Lemma py_max_fold `{!VersionOrder} (l : list Version) (cur : Version) :
  let m := foldl (fun cur item => if version_gt item cur then item else cur) cur l in
  (m = cur \/ m ∈ l)
  /\ (cur = m \/ version_gt m cur = true)
  /\ forall x, x ∈ l -> x = m \/ version_gt m x = true.
Proof.
  revert cur. induction l as [|y l IH]; intros cur; simpl.
  - repeat split; [by left | by left | by intros x ?%elem_of_nil].
  - destruct (version_gt y cur) eqn:E.
    + destruct (IH y) as (Hm & Hge & Hall). repeat split.
      * right. destruct Hm as [->|Hm]; [left | by right].
      * right. destruct Hge as [<-|Hge]; [done|]. by apply (version_gt_trans _ y).
      * intros x [->|Hx]%elem_of_cons; [|by apply Hall].
        destruct Hge as [<-|Hge]; [by left | by right].
    + destruct (IH cur) as (Hm & Hge & Hall). repeat split.
      * destruct Hm as [->|Hm]; [by left | right; by right].
      * done.
      * intros x [->|Hx]%elem_of_cons; [|by apply Hall].
        destruct (version_gt_total y cur) as [->|[Hgt|Hlt]]; [| congruence |].
        -- destruct Hge as [<-|Hge]; [by left | by right].
        -- destruct Hge as [<-|Hge]; [by right|]. right.
           by apply (version_gt_trans _ cur).
Qed.

(** [max] of a non-empty list of versions is its greatest element. *)
Lemma py_max_spec `{!VersionOrder} (l : list Version) (m : Version) :
  py_max l = Some m -> m ∈ l /\ forall x, x ∈ l -> x = m \/ version_gt m x = true.
Proof.
  destruct l as [|x l]; simpl; [discriminate|]. intros [= <-].
  destruct (py_max_fold l x) as (Hm & Hge & Hall). split.
  - destruct Hm as [->|Hm]; [left | by right].
  - intros y [->|Hy]%elem_of_cons; [|by apply Hall].
    destruct Hge as [<-|Hge]; [by left | by right].
Qed.

Lemma py_max_is_Some (l : list Version) : l <> [] -> exists m, py_max l = Some m.
Proof. destruct l; [done|]. intros _. by eexists. Qed.

End RepositoryResolverProperties.

Lemma filter_none {A} (P : A -> Prop) `{forall x, Decision (P x)} (l : list A) :
  (forall x, x ∈ l -> ~ P x) -> filter P l = [].
Proof.
  induction l as [|x l IH]; intros Hn; [reflexivity|].
  rewrite filter_cons_False by (apply Hn; left).
  apply IH. intros y Hy. apply Hn. by right.
Qed.

Section SelectionProperties.
Context `{VersionLib} `{GitBackend} `{ProjectConfig}.

Lemma select_checkout_semver `{!VersionOrder} (module_spec : string) (tags : list string)
    (d : list (Version * string)) (s : State) :
  PyStr.contains "@" module_spec = false ->
  dict_ok tags d ->
  (exists v, v ∈ d.*1 /\ version_match module_spec v = true) ->
  exists v tag,
    select_checkout module_spec d s = (Return (Some v, Some (RefTag tag)), s)
    /\ v ∈ d.*1 /\ version_match module_spec v = true
    /\ (forall w, w ∈ d.*1 -> version_match module_spec w = true ->
                  w = v \/ version_gt v w = true)
    /\ version_parse tag = Some v /\ tag ∈ tags.
Proof.
  intros Hat Hok (v0 & Hv0 & Hm0). unfold select_checkout. rewrite Hat.
  destruct d as [|p d']; [by apply elem_of_nil in Hv0|].
  set (d := p :: d') in *.
  set (valid := filter (fun v => version_match module_spec v = true) (d.*1)).
  assert (v0 ∈ valid) as Hin0 by (by apply list_elem_of_filter).
  destruct (py_max_is_Some valid) as [m Hmax].
  { intros E. rewrite E in Hin0. by apply elem_of_nil in Hin0. }
  rewrite Hmax. destruct (py_max_spec valid m Hmax) as [Hm Hall].
  apply list_elem_of_filter in Hm as [Hmm Hmd].
  destruct (dict_get_is_Some m d Hmd) as [tag Hget]. rewrite Hget.
  destruct (dict_get_ok tags m tag d Hok Hget) as [Hp Ht].
  exists m, tag. repeat split; try done.
  intros w Hw Hwm. apply Hall. by apply list_elem_of_filter.
Qed.

Lemma select_checkout_no_match (module_spec : string) (d : list (Version * string)) (s : State) :
  PyStr.contains "@" module_spec = false ->
  d <> [] ->
  (forall v, v ∈ d.*1 -> version_match module_spec v = false) ->
  select_checkout module_spec d s = (Raise (ValueError "max() arg is an empty sequence"), s).
Proof.
  intros Hat Hne Hnone. unfold select_checkout. rewrite Hat.
  destruct d as [|p d']; [done|].
  rewrite filter_none; [reflexivity|].
  intros v Hv Hm. rewrite (Hnone v Hv) in Hm. discriminate Hm.
Qed.

(** The tag loop from the empty dict: its keys are the parsed versions. *)
Lemma parse_tags_keys (tags : list string) (s : State) :
  exists d evs,
    parse_tags tags [] s = (Return d, with_events s evs)
    /\ dict_ok tags d
    /\ (forall v, v ∈ d.*1 <-> v ∈ parsed_versions tags)
    /\ Forall is_debug evs.
Proof.
  destruct (parse_tags_run tags tags [] s) as (d & evs & Hr & Hok & Hkeys & Hdbg);
    [constructor | done |].
  exists d, evs. repeat split; try done.
  - intros Hv. apply Hkeys in Hv as [?%elem_of_nil|?]; done.
  - intros Hv. apply Hkeys. by right.
Qed.

Lemma select_version_semver `{!VersionOrder} (module_spec : string) (tags : list string) (s : State) :
  PyStr.contains "@" module_spec = false ->
  (exists v, v ∈ parsed_versions tags /\ version_match module_spec v = true) ->
  exists v tag evs,
    select_version module_spec tags s
      = (Return (Some v, Some (RefTag tag)), with_events s evs)
    /\ Forall is_debug evs
    /\ v ∈ parsed_versions tags /\ version_match module_spec v = true
    /\ (forall w, w ∈ parsed_versions tags -> version_match module_spec w = true ->
                  w = v \/ version_gt v w = true)
    /\ version_parse tag = Some v /\ tag ∈ tags.
Proof.
  intros Hat (v0 & Hv0 & Hm0).
  destruct (parse_tags_keys tags s) as (d & evs & Hr & Hok & Hk & Hdbg).
  destruct (select_checkout_semver module_spec tags d (with_events s evs) Hat Hok)
    as (v & tag & Hs & Hv & Hm & Hmax & Hp & Ht).
  { exists v0. split; [by apply Hk | done]. }
  exists v, tag, evs. unfold select_version, bind. rewrite Hr, Hs.
  repeat split; try done.
  - by apply Hk.
  - intros w Hw. apply Hmax. by apply Hk.
Qed.

Lemma select_version_no_match (module_spec : string) (tags : list string) (s : State) :
  PyStr.contains "@" module_spec = false ->
  parsed_versions tags <> [] ->
  (forall v, v ∈ parsed_versions tags -> version_match module_spec v = false) ->
  exists evs,
    select_version module_spec tags s
      = (Raise (ValueError "max() arg is an empty sequence"), with_events s evs)
    /\ Forall is_debug evs.
Proof.
  intros Hat Hne Hnone.
  destruct (parse_tags_keys tags s) as (d & evs & Hr & Hok & Hk & Hdbg).
  exists evs. split; [|exact Hdbg]. unfold select_version, bind. rewrite Hr.
  apply select_checkout_no_match; [done | |].
  - intros ->. destruct (parsed_versions tags) as [|v l]; [done|].
    assert (v ∈ ([] : list (Version * string)).*1) as Hv by (apply Hk; left).
    by apply elem_of_nil in Hv.
  - intros v Hv. apply Hnone. by apply Hk.
Qed.

Lemma select_version_fallback (module_spec : string) (tags : list string) (s : State) :
  PyStr.contains "@" module_spec = false ->
  parsed_versions tags = [] ->
  exists evs,
    select_version module_spec tags s
      = (Return (None, None),
         with_events s (evs ++ [LogWarning "No semver tags found for this module. Using latest default branch :hot_pepper:."]))
    /\ Forall is_debug evs.
Proof.
  intros Hat Hnil.
  destruct (parse_tags_keys tags s) as (d & evs & Hr & Hok & Hk & Hdbg).
  exists evs. split; [|exact Hdbg]. unfold select_version, bind. rewrite Hr.
  assert (d = []) as ->.
  { destruct d as [|[v t] d]; [done|].
    assert (v ∈ parsed_versions tags) as Hv by (apply Hk; left).
    rewrite Hnil in Hv. by apply elem_of_nil in Hv. }
  unfold select_checkout. rewrite Hat. rewrite emit_run.
  unfold ret. by rewrite with_events_app.
Qed.

Lemma select_version_at (module_spec : string) (tags : list string) (s : State) :
  PyStr.contains "@" module_spec = true ->
  exists evs,
    select_version module_spec tags s
      = (Return (None, Some (RefName (PyStr.strip_chars "@" (PyStr.strip module_spec)))),
         with_events s evs)
    /\ Forall is_debug evs.
Proof.
  intros Hat.
  destruct (parse_tags_keys tags s) as (d & evs & Hr & Hok & Hk & Hdbg).
  exists evs. split; [|exact Hdbg]. unfold select_version, bind. rewrite Hr.
  unfold select_checkout. by rewrite Hat.
Qed.

(** Selection only logs: whatever it gives, the state it leaves differs
    from the one it began in only by debug and warning lines. *)
Lemma select_version_frame (module_spec : string) (tags : list string) (s s' : State)
    (res : Result (option Version * option Ref)) :
  select_version module_spec tags s = (res, s') ->
  exists evs, s' = with_events s evs /\ Forall (fun e => ~ is_checkout e) evs.
Proof.
  intros Hs.
  destruct (parse_tags_keys tags s) as (d & evs & Hr & Hok & Hk & Hdbg).
  assert (Forall (fun e => ~ is_checkout e) evs) as Hnc.
  { eapply Forall_impl; [exact Hdbg|]. intros [] Hd; simpl in *; tauto. }
  unfold select_version, bind in Hs. rewrite Hr in Hs. unfold select_checkout in Hs.
  destruct (PyStr.contains "@" module_spec).
  - injection Hs as _ <-. by exists evs.
  - destruct d as [|p d'].
    + rewrite emit_run in Hs. injection Hs as _ <-. rewrite with_events_app.
      eexists. split; [reflexivity|]. apply Forall_app. split; [done|].
      constructor; [simpl; tauto | constructor].
    + destruct (py_max _) as [m|]; [|injection Hs as _ <-; by exists evs].
      destruct (dict_get m _); injection Hs as _ <-; by exists evs.
Qed.

(** C4: in every resolution whose constraint holds no at sign and for which
    some tag of the working copy parses to a version matching the
    constraint, selection yields a version that is parsed from a tag,
    matches the constraint, and is the greatest of the matching parsed
    versions in the version order; the reference to check out is a tag that
    parses to it. *)
Theorem selection_picks_maximum `{!VersionOrder} (module_spec : string)
    (tags : list string) (s : State) :
  PyStr.contains "@" module_spec = false ->
  (exists v, v ∈ parsed_versions tags /\ version_match module_spec v = true) ->
  exists v tag s',
    select_version module_spec tags s = (Return (Some v, Some (RefTag tag)), s')
    /\ v ∈ parsed_versions tags
    /\ version_match module_spec v = true
    /\ (forall w, w ∈ parsed_versions tags -> version_match module_spec w = true ->
                  w = v \/ version_gt v w = true)
    /\ version_parse tag = Some v /\ tag ∈ tags
    /\ repos s' = repos s.
Proof.
  intros Hat Hsome.
  destruct (select_version_semver module_spec tags s Hat Hsome)
    as (v & tag & evs & Hs & _ & Hrest).
  exists v, tag, (with_events s evs). split; [exact Hs|].
  destruct Hrest as (? & ? & ? & ? & ?). repeat split; done.
Qed.

End SelectionProperties.

Lemma bind_return {St A B} (c : M St A) (k : A -> M St B) (s s' : St) (a : A) :
  c s = (Return a, s') -> bind c k s = k a s'.
Proof. intros Hc. unfold bind. by rewrite Hc. Qed.

Lemma bind_raise {St A B} (c : M St A) (k : A -> M St B) (s s' : St) (e : Exn) :
  c s = (Raise e, s') -> bind c k s = (Raise e, s').
Proof. intros Hc. unfold bind. by rewrite Hc. Qed.

Lemma read_repo_run (repo : string) (s : State) (r : Repo) :
  repos s !! repo = Some r -> read_repo repo s = (Return r, s).
Proof. intros Hr. unfold read_repo, bind, get. by rewrite Hr. Qed.

Section InstallProperties.
Context `{VersionLib} `{GitBackend} `{ProjectConfig}.

Lemma checkout_best_dirty (module_name repo : string) (sem : option Version)
    (best : option Ref) (s : State) (r : Repo) :
  repos s !! repo = Some r ->
  repo_dirty r = true ->
  checkout_best module_name repo sem best s
  = (Raise (AtoError (code_points ("Module " +:+ module_name
                                   +:+ " has uncommitted changes. Aborting."))), s).
Proof.
  intros Hr Hd. unfold checkout_best.
  rewrite (bind_return _ _ _ _ _ (read_repo_run _ _ _ Hr)). by rewrite Hd.
Qed.

Lemma checkout_best_unbound (module_name repo : string) (sem : option Version)
    (s : State) (r : Repo) :
  repos s !! repo = Some r ->
  repo_dirty r = false ->
  checkout_best module_name repo sem None s = (Raise (UnboundLocalError "best_checkout"), s).
Proof.
  intros Hr Hd. unfold checkout_best.
  rewrite (bind_return _ _ _ _ _ (read_repo_run _ _ _ Hr)). by rewrite Hd.
Qed.

Lemma checkout_best_done (module_name repo : string) (sem : option Version)
    (ref : Ref) (s : State) (r r' : Repo) :
  repos s !! repo = Some r ->
  repo_dirty r = false ->
  git_checkout (ref_str ref) r = Some r' ->
  exists msg,
    checkout_best module_name repo sem (Some ref) s
    = (Return (match sem with
               | Some v => if version_truthy v then VRef ref else VNone
               | None => VNone
               end),
       {| dirs := dirs s;
          repos := <[repo := r']> (repos s);
          events := events s ++ [GitCheckout repo (ref_str ref); LogInfo msg] |}).
Proof.
  intros Hr Hd Hc. unfold checkout_best.
  rewrite (bind_return _ _ _ _ _ (read_repo_run _ _ _ Hr)). rewrite Hd.
  rewrite emit_run, Hc.
  unfold bind at 1, set_repo, modify.
  destruct (decide (repo_head r' = repo_head r)); rewrite emit_run;
    unfold with_events; cbn [dirs repos events]; rewrite <- app_assoc;
    eexists; destruct sem as [v|]; try destruct (version_truthy v); reflexivity.
Qed.

Lemma checkout_best_failed (module_name repo : string) (sem : option Version)
    (ref : Ref) (s : State) (r : Repo) :
  repos s !! repo = Some r ->
  repo_dirty r = false ->
  git_checkout (ref_str ref) r = None ->
  checkout_best module_name repo sem (Some ref) s
  = (Raise (GitCommandError "checkout"), with_events s [GitCheckout repo (ref_str ref)]).
Proof.
  intros Hr Hd Hc. unfold checkout_best.
  rewrite (bind_return _ _ _ _ _ (read_repo_run _ _ _ Hr)). rewrite Hd.
  by rewrite emit_run, Hc.
Qed.

Lemma resolve_and_checkout_run (module_name module_spec repo : string) (s : State) (r : Repo) :
  repos s !! repo = Some r ->
  resolve_and_checkout module_name module_spec repo s
  = match select_version module_spec (repo_tags r) s with
    | (Return sel, s2) => checkout_best module_name repo sel.1 sel.2 s2
    | (Raise e, s2) => (Raise e, s2)
    end.
Proof.
  intros Hr. unfold resolve_and_checkout.
  rewrite (bind_return _ _ _ _ _ (read_repo_run _ _ _ Hr)). reflexivity.
Qed.

(** Past line 140 the function is [resolve_and_checkout] on the working
    copy that was cloned or fetched. *)
Lemma install_dependency_reaches (module top_level_path : string) (upgrade : bool)
    (s : State) (repo : string) (r : Repo) (s1 : State) :
  reaches_selection module top_level_path upgrade s repo r s1 ->
  install_dependency module top_level_path upgrade s
  = resolve_and_checkout (split_module_spec module).1 (constraint_of module) repo s1
  /\ repos s1 !! repo = Some r.
Proof.
  intros Hreach. destruct Hreach as [mp r Hcfg name repo url Hnone Hclone
                                    | mp r0 r Hcfg name repo Hsome Hup Hfetch].
  - split; [|apply lookup_insert_eq].
    unfold install_dependency. rewrite Hcfg.
    unfold bind at 1, mkdir, modify. unfold bind at 1, get. cbn [dirs repos events].
    fold name. fold repo. rewrite Hnone.
    rewrite !emit_run. fold url. rewrite Hclone.
    unfold bind at 1, set_repo, modify, with_events. cbn [dirs repos events].
    rewrite <- app_assoc. reflexivity.
  - split; [|apply lookup_insert_eq].
    unfold install_dependency. rewrite Hcfg.
    unfold bind at 1, mkdir, modify. unfold bind at 1, get. cbn [dirs repos events].
    fold name. fold repo. rewrite Hsome, Hup.
    rewrite !emit_run. rewrite Hfetch.
    unfold bind at 1, set_repo, modify, with_events. cbn [dirs repos events].
    rewrite <- app_assoc. reflexivity.
Qed.

(** C5: when an install reaches the check before the checkout (it got a
    working copy by clone or fetch, and version selection returned) and the
    working copy is dirty, [install_dependency] raises [AtoError] and runs
    no checkout: the check leaves the whole state as it found it, so the
    working copy -- head commit and files -- is the one from before the
    check, and no checkout command appears after the clone or fetch. *)
Theorem dirty_working_copy_aborts (module top_level_path : string) (upgrade : bool)
    (s : State) (repo : string) (r : Repo) (s1 s2 : State)
    (sel : option Version * option Ref) :
  reaches_selection module top_level_path upgrade s repo r s1 ->
  select_version (constraint_of module) (repo_tags r) s1 = (Return sel, s2) ->
  repo_dirty r = true ->
  let aborted :=
    Raise (AtoError (code_points ("Module " +:+ (split_module_spec module).1
                                  +:+ " has uncommitted changes. Aborting."))) in
  checkout_best (split_module_spec module).1 repo sel.1 sel.2 s2 = (aborted, s2)
  /\ install_dependency module top_level_path upgrade s = (aborted, s2)
  /\ repos s2 = repos s1
  /\ repos s2 !! repo = Some r
  /\ exists evs, events s2 = events s1 ++ evs /\ Forall (fun e => ~ is_checkout e) evs.
Proof.
  intros Hreach Hsel Hdirty aborted.
  destruct (install_dependency_reaches _ _ _ _ _ _ _ Hreach) as [Hinst Hrepo].
  destruct (select_version_frame _ _ _ _ _ Hsel) as (evs & -> & Hnc).
  assert (checkout_best (split_module_spec module).1 repo sel.1 sel.2 (with_events s1 evs)
          = (aborted, with_events s1 evs)) as Hc
    by (by apply (checkout_best_dirty _ _ _ _ _ r)).
  split; [exact Hc|]. split.
  - rewrite Hinst, (resolve_and_checkout_run _ _ _ _ r Hrepo), Hsel. exact Hc.
  - repeat split; [done|]. by exists evs.
Qed.

(** C6: with [upgrade] false and a valid repository already at the target
    directory, [install_dependency] returns [None] at once: it logs one
    line, issues no git command, and leaves every working copy as it was;
    the only call it has made on the file system is the [mkdir] of the
    module root, which changes nothing when that directory exists. *)
Theorem existing_repo_left_alone (module top_level_path modules_path : string)
    (s : State) (r : Repo) :
  abs_module_path top_level_path = Some modules_path ->
  repos s !! path_join modules_path (split_module_spec module).1 = Some r ->
  exists s',
    install_dependency module top_level_path false s = (Return VNone, s')
    /\ repos s' = repos s
    /\ events s' = events s ++ [LogInfo ((split_module_spec module).1
                      +:+ " already exists. If you wish to upgrade, use --upgrade")]
    /\ dirs s' = {[modules_path]} ∪ dirs s
    /\ (modules_path ∈ dirs s -> dirs s' = dirs s).
Proof.
  intros Hcfg Hrepo. eexists. split.
  - unfold install_dependency. rewrite Hcfg.
    unfold bind at 1, mkdir, modify. unfold bind at 1, get. cbn [dirs repos events].
    rewrite Hrepo. rewrite emit_run. reflexivity.
  - cbn [with_events dirs repos events]. repeat split. intros Hin.
    apply subseteq_union_1_L. by apply singleton_subseteq_l.
Qed.

(** C10 (as amended): in every install that gets as far as version
    selection -- a fresh clone, or [upgrade] on an existing working copy --
    whose constraint holds no at sign, where at least one tag parses but no
    parsed version matches the constraint, [install_dependency] raises the
    [ValueError] of [max] on an empty list: nothing guards the call, nothing
    is checked out, and the state past the clone or fetch gains debug lines
    only. *)
Theorem no_matching_version_raises (module top_level_path : string) (upgrade : bool)
    (s : State) (repo : string) (r : Repo) (s1 : State) :
  reaches_selection module top_level_path upgrade s repo r s1 ->
  PyStr.contains "@" (constraint_of module) = false ->
  parsed_versions (repo_tags r) <> [] ->
  (forall v, v ∈ parsed_versions (repo_tags r) ->
             version_match (constraint_of module) v = false) ->
  exists evs,
    install_dependency module top_level_path upgrade s
    = (Raise (ValueError "max() arg is an empty sequence"), with_events s1 evs)
    /\ Forall is_debug evs.
Proof.
  intros Hreach Hat Hne Hnone.
  destruct (install_dependency_reaches _ _ _ _ _ _ _ Hreach) as [Hinst Hrepo].
  destruct (select_version_no_match _ _ s1 Hat Hne Hnone) as (evs & Hsel & Hdbg).
  exists evs. split; [|exact Hdbg].
  by rewrite Hinst, (resolve_and_checkout_run _ _ _ _ r Hrepo), Hsel.
Qed.

(** X1: without an at sign and without a tag that parses, an install that gets
    as far as version selection on a clean working copy logs the warning
    about the default branch and then fails on the unassigned
    [best_checkout]; nothing is checked out. *)
Lemma no_tags_fallback_raises (module top_level_path : string) (upgrade : bool)
    (s : State) (repo : string) (r : Repo) (s1 : State) :
  reaches_selection module top_level_path upgrade s repo r s1 ->
  PyStr.contains "@" (constraint_of module) = false ->
  parsed_versions (repo_tags r) = [] ->
  repo_dirty r = false ->
  exists evs,
    install_dependency module top_level_path upgrade s
    = (Raise (UnboundLocalError "best_checkout"),
       with_events s1 (evs ++ [LogWarning "No semver tags found for this module. Using latest default branch :hot_pepper:."]))
    /\ Forall is_debug evs.
Proof.
  intros Hreach Hat Hnil Hclean.
  destruct (install_dependency_reaches _ _ _ _ _ _ _ Hreach) as [Hinst Hrepo].
  destruct (select_version_fallback _ _ s1 Hat Hnil) as (evs & Hsel & Hdbg).
  exists evs. split; [|exact Hdbg].
  rewrite Hinst, (resolve_and_checkout_run _ _ _ _ r Hrepo), Hsel. simpl.
  by apply (checkout_best_unbound _ _ _ _ r).
Qed.


End InstallProperties.

(** ** The sample environment *)

Lemma sample_gt_spec (a b : Sample.SemVer) :
  Sample.gt a b = true <->
  (b.1.1 < a.1.1 \/ (b.1.1 = a.1.1 /\ (b.1.2 < a.1.2 \/ (b.1.2 = a.1.2 /\ b.2 < a.2))))%N.
Proof.
  destruct a as [[a1 a2] a3], b as [[b1 b2] b3]. unfold Sample.gt. simpl.
  rewrite !orb_true_iff, !andb_true_iff, !orb_true_iff, !andb_true_iff.
  rewrite !N.ltb_lt, !N.eqb_eq. reflexivity.
Qed.

Lemma sample_version_order : VersionOrder (H := Sample.version_lib).
Proof.
  split.
  - intros v. simpl. destruct (Sample.gt v v) eqn:E; [|reflexivity].
    apply sample_gt_spec in E. lia.
  - intros a b c. simpl. rewrite !sample_gt_spec. lia.
  - intros a b. simpl. rewrite !sample_gt_spec.
    destruct a as [[a1 a2] a3], b as [[b1 b2] b3]. simpl.
    destruct (N.lt_trichotomy a1 b1) as [?|[->|?]]; [lia| |lia].
    destruct (N.lt_trichotomy a2 b2) as [?|[->|?]]; [lia| |lia].
    destruct (N.lt_trichotomy a3 b3) as [?|[->|?]]; [lia| |lia].
    by left.
Qed.

(** With the tags 1.0.0, 1.2.0 and 2.0.0 and the constraint [^1.0.0],
    selection yields 1.2.0 and its tag, not 2.0.0. *)
Lemma selection_picks_1_2_0 :
  exists v tag s',
    select_version (H := Sample.version_lib) "^1.0.0" ["1.0.0"; "1.2.0"; "2.0.0"]
      Sample.empty_state = (Return (Some v, Some (RefTag tag)), s')
    /\ v = (1, 2, 0)%N /\ v <> (2, 0, 0)%N /\ tag = "1.2.0".
Proof.
  destruct (selection_picks_maximum (H := Sample.version_lib)
              (H2 := sample_version_order)
              "^1.0.0" ["1.0.0"; "1.2.0"; "2.0.0"] Sample.empty_state)
    as (v & tag & s' & Hs & _).
  - vm_compute. reflexivity.
  - exists (1, 0, 0)%N. split; [|vm_compute; reflexivity].
    apply (bool_decide_unpack _). vm_compute. exact I.
  - assert (select_version (H := Sample.version_lib) "^1.0.0" ["1.0.0"; "1.2.0"; "2.0.0"]
              Sample.empty_state
            = (Return (Some (1, 2, 0)%N, Some (RefTag "1.2.0")), Sample.empty_state)) as E
      by (vm_compute; reflexivity).
    exists v, tag, s'. split; [exact Hs|].
    rewrite E in Hs. injection Hs as <- <- _. repeat split. discriminate.
Defined.

(** Upgrading [pkg] where the working copy has local changes: the fetch
    runs, the install aborts, and the working copy stays as fetched. *)
Lemma dirty_pkg_upgrade_aborts :
  exists s2,
    install_dependency (H := Sample.version_lib) (H0 := Sample.git_backend (Some Sample.released))
      (H1 := Sample.project_config) "pkg" "/proj" true
      (Sample.state_with Sample.pkg_path Sample.edited)
    = (Raise (AtoError (code_points "Module pkg has uncommitted changes. Aborting.")), s2)
    /\ repos s2 !! Sample.pkg_path
       = Some (Sample.repo_with ["1.0.0"; "1.2.0"; "2.0.0"] true).
Proof.
  pose proof (reaches_by_fetch (H := Sample.version_lib)
                (H0 := Sample.git_backend (Some Sample.released))
                (H1 := Sample.project_config) "pkg" "/proj" true
                (Sample.state_with Sample.pkg_path Sample.edited)
                "/proj/.ato/modules" Sample.edited
                (Sample.repo_with ["1.0.0"; "1.2.0"; "2.0.0"] true)
                eq_refl ltac:(vm_compute; reflexivity) eq_refl eq_refl) as Hreach.
  destruct (select_version (H := Sample.version_lib)
              (constraint_of (H := Sample.version_lib) "pkg")
              (repo_tags (Sample.repo_with ["1.0.0"; "1.2.0"; "2.0.0"] true))
              (with_events (Sample.state_with Sample.pkg_path
                              (Sample.repo_with ["1.0.0"; "1.2.0"; "2.0.0"] true))
                 [LogInfo "Fetching latest changes for pkg"; GitFetch Sample.pkg_path]))
    as [res s2] eqn:Hsel.
  assert (exists sel, res = Return sel) as [sel ->].
  { vm_compute in Hsel. injection Hsel as <- _. by eexists. }
  destruct (dirty_working_copy_aborts (H := Sample.version_lib)
              (H0 := Sample.git_backend (Some Sample.released))
              (H1 := Sample.project_config)
              "pkg" "/proj" true _ _ _ _ s2 sel Hreach) as (_ & Hinst & _ & Hrepo & _).
  - rewrite <- Hsel. vm_compute. reflexivity.
  - reflexivity.
  - exists s2. split; [exact Hinst | exact Hrepo].
Defined.

(** Installing [pkg^2.0.0] without [--upgrade] where [pkg] is installed. *)
Lemma installed_pkg_left_alone :
  exists s',
    install_dependency (H := Sample.version_lib) (H0 := Sample.git_backend (Some Sample.released))
      (H1 := Sample.project_config) "pkg^2.0.0" "/proj" false
      (Sample.state_with Sample.pkg_path Sample.edited)
    = (Return VNone, s')
    /\ repos s' = repos (Sample.state_with Sample.pkg_path Sample.edited)
    /\ dirs s' = dirs (Sample.state_with Sample.pkg_path Sample.edited).
Proof.
  destruct (existing_repo_left_alone (H := Sample.version_lib)
              (H0 := Sample.git_backend (Some Sample.released))
              (H1 := Sample.project_config)
              "pkg^2.0.0" "/proj" "/proj/.ato/modules"
              (Sample.state_with Sample.pkg_path Sample.edited) Sample.edited)
    as (s' & Hinst & Hrepos & _ & _ & Hdirs).
  - reflexivity.
  - vm_compute. reflexivity.
  - exists s'. split; [exact Hinst|]. split; [exact Hrepos|].
    apply Hdirs. apply (bool_decide_unpack _). vm_compute. exact I.
Defined.

(** Installing [pkg^9.0.0] afresh where the releases are 1.0.0, 1.2.0 and
    2.0.0. *)
Lemma no_release_matches_9 :
  exists s',
    install_dependency (H := Sample.version_lib) (H0 := Sample.git_backend (Some Sample.released))
      (H1 := Sample.project_config) "pkg^9.0.0" "/proj" false Sample.empty_state
    = (Raise (ValueError "max() arg is an empty sequence"), s')
    /\ repos s' !! Sample.pkg_path = Some Sample.released.
Proof.
  pose proof (reaches_by_clone (H := Sample.version_lib)
                (H0 := Sample.git_backend (Some Sample.released))
                (H1 := Sample.project_config) "pkg^9.0.0" "/proj" false
                Sample.empty_state "/proj/.ato/modules" Sample.released
                eq_refl ltac:(vm_compute; reflexivity) eq_refl) as Hreach.
  destruct (no_matching_version_raises (H := Sample.version_lib)
              (H0 := Sample.git_backend (Some Sample.released))
              (H1 := Sample.project_config)
              "pkg^9.0.0" "/proj" false _ _ _ _ Hreach) as (evs & Hinst & _).
  - vm_compute. reflexivity.
  - vm_compute. discriminate.
  - intros v Hv.
    assert (v ∈ [(1, 0, 0); (1, 2, 0); (2, 0, 0)]%N) as Hin by exact Hv.
    repeat (apply elem_of_cons in Hin as [-> | Hin]; [vm_compute; reflexivity|]).
    by apply elem_of_nil in Hin.
  - eexists. split; [exact Hinst|]. vm_compute. reflexivity.
Defined.

(** C10, the claim as stated, fails where the working copy is there and
    [upgrade] is false: the constraint [^9.0.0] holds no at sign, the tag
    1.0.0 parses and does not match it, and [install_dependency] returns
    [None] at line 140 without looking at the tags. *)
Lemma no_match_without_upgrade_returns :
  PyStr.contains "@" (constraint_of (H := Sample.version_lib) "pkg^9.0.0") = false
  /\ parsed_versions (H := Sample.version_lib) (repo_tags Sample.edited) = [(1, 0, 0)%N]
  /\ version_match (VersionLib := Sample.version_lib)
       (constraint_of (H := Sample.version_lib) "pkg^9.0.0") (1, 0, 0)%N = false
  /\ (install_dependency (H := Sample.version_lib)
        (H0 := Sample.git_backend (Some Sample.released))
        (H1 := Sample.project_config) "pkg^9.0.0" "/proj" false
        (Sample.state_with Sample.pkg_path Sample.edited)).1
     = Return VNone.
Proof. repeat split; vm_compute; reflexivity. Qed.

(** C1: at a fresh install of [pkg] from a remote whose only tag, [latest],
    is no version, [install_dependency] logs the warning about the default
    branch and then raises [UnboundLocalError]: no branch assigned
    [best_checkout], and no checkout is run. *)
Theorem no_semver_tags_install_raises :
  let run := install_dependency (H := Sample.version_lib)
               (H0 := Sample.git_backend (Some Sample.untagged))
               (H1 := Sample.project_config) "pkg" "/proj" false Sample.empty_state in
  run.1 = Raise (UnboundLocalError "best_checkout")
  /\ events run.2
     = [LogInfo "Installing dependency pkg";
        GitClone "https://gitlab.atopile.io/packages/pkg" "/proj/.ato/modules/pkg";
        LogDebug "Tag latest is not a valid semver tag. Skipping.";
        LogWarning "No semver tags found for this module. Using latest default branch :hot_pepper:."]
  /\ repos run.2 !! Sample.pkg_path = Some Sample.untagged.
Proof.
  assert ((install_dependency (H := Sample.version_lib)
             (H0 := Sample.git_backend (Some Sample.untagged))
             (H1 := Sample.project_config) "pkg" "/proj" false Sample.empty_state).1
          = Raise (UnboundLocalError "best_checkout")) as E by (vm_compute; reflexivity).
  cbv zeta. rewrite E. split; [reflexivity|].
  split; vm_compute; reflexivity.
Qed.

(** C2: at a fresh install of [pkg^1.0.0] from a remote with the releases
    1.0.0, 1.2.0 and 2.0.0, [install_dependency] checks out the tag of 1.2.0
    and returns that tag object ([best_checkout]); it does not return the
    version 1.2.0 ([installed_semver]). *)
Theorem semver_install_returns_tag_object :
  let run := install_dependency (H := Sample.version_lib)
               (H0 := Sample.git_backend (Some Sample.released))
               (H1 := Sample.project_config) "pkg^1.0.0" "/proj" false Sample.empty_state in
  run.1 = Return (VRef (RefTag "1.2.0"))
  /\ run.1 <> Return (VVersion (H := Sample.version_lib) (1, 2, 0)%N)
  /\ events run.2
     = [LogInfo "Installing dependency pkg";
        GitClone "https://gitlab.atopile.io/packages/pkg" "/proj/.ato/modules/pkg";
        GitCheckout "/proj/.ato/modules/pkg" "1.2.0";
        LogInfo "Using :sparkles: [cyan bold]1.2.0[/] :sparkles: of pkg"].
Proof.
  assert ((install_dependency (H := Sample.version_lib)
             (H0 := Sample.git_backend (Some Sample.released))
             (H1 := Sample.project_config) "pkg^1.0.0" "/proj" false Sample.empty_state).1
          = Return (VRef (RefTag "1.2.0"))) as E by (vm_compute; reflexivity).
  cbv zeta. rewrite E. split; [reflexivity|]. split; [discriminate|].
  vm_compute. reflexivity.
Qed.

(** ** [install_jlcpcb] *)

Lemma act_run {A} (a : Action) (k : M (list Action) A) (trace : list Action) :
  (act a ;; k) trace = k (trace ++ [a]).
Proof. reflexivity. Qed.

Lemma isdigit_spec (s : ustr) :
  PyUnicode.isdigit s = true <-> s <> [] /\ Forall (fun c => PyUnicode.isdigit_cp c = true) s.
Proof.
  destruct s as [|c s]; simpl.
  - split; [discriminate | intros [? _]; done].
  - rewrite andb_true_iff, forallb_forall, Forall_cons, Forall_forall.
    split.
    + intros [Hc Hs]. split; [done|]. split; [done|].
      intros x Hx. apply Hs. by apply list_elem_of_In.
    + intros [_ [Hc Hs]]. split; [done|].
      intros x Hx. apply Hs. by apply list_elem_of_In.
Qed.

Lemma ascii_digit_isdigit (c : N) : ascii_digit c = true -> PyUnicode.isdigit_cp c = true.
Proof. unfold ascii_digit, PyUnicode.isdigit_cp. intros ->. reflexivity. Qed.

Lemma appends_only_act (a : Action) : appends_only (act a).
Proof. intros trace. by exists (Return tt), [a]. Qed.

Lemma appends_only_raise {A} (e : Exn) : appends_only (raise e : M (list Action) A).
Proof. intros trace. exists (Raise e), []. unfold raise. by rewrite app_nil_r. Qed.

Lemma appends_only_bind {A B} (c : M (list Action) A) (k : A -> M (list Action) B) :
  appends_only c -> (forall a, appends_only (k a)) -> appends_only (bind c k).
Proof.
  intros Hc Hk trace. destruct (Hc trace) as (res & rest & Hr).
  unfold bind. rewrite Hr. destruct res as [a|e].
  - destruct (Hk a (trace ++ rest)) as (res' & rest' & Hr'). rewrite Hr'.
    exists res', (rest ++ rest'). by rewrite app_assoc.
  - by exists (Raise e), rest.
Qed.

Section FootprintInstallerProperties.
Context `{FootprintEnv}.

(** The test of line 199 passes exactly on a capital C followed by one or
    more characters that [str.isdigit] accepts. *)
Lemma component_id_valid_iff (cid : ustr) :
  component_id_invalid cid = false <->
  exists digits, cid = 67%N :: digits /\ digits <> []
                 /\ Forall (fun c => PyUnicode.isdigit_cp c = true) digits.
Proof.
  unfold component_id_invalid. rewrite orb_false_iff, !negb_false_iff.
  destruct cid as [|c rest].
  - simpl. split; [intros [? _]; discriminate | intros (d & ? & _); discriminate].
  - change (drop 1 (c :: rest)) with rest. rewrite isdigit_spec.
    change (PyUnicode.startswith (code_points "C") (c :: rest))
      with (if (67 =? c)%N then true else false).
    destruct (N.eqb_spec 67 c) as [<-|Hne].
    + split.
      * intros [_ [Hne Hd]]. by exists rest.
      * intros (d & [= <-] & Hne & Hd). done.
    + split; [intros [? _]; discriminate|].
      intros (d & [= -> _] & _). done.
Qed.

(** C9 (as amended): [install_jlcpcb] uppercases the component id and then
    accepts it exactly when it is a capital C followed by one or more
    characters for which [str.isdigit] holds -- the ten decimal digits, and
    also other Unicode digits such as the superscripts.  Every id matching
    [^C[0-9]+$] after uppercasing is accepted, [c123] becoming [C123]; an id
    the test rejects, as [X123] and [C12A], raises [AtoError] with the trace
    of outside actions untouched: no repository is opened and no subprocess
    run.  An accepted id goes on to open the repository. *)
Theorem install_jlcpcb_validates_first (component_id : string) :
  let cid := PyUnicode.upper component_id in
  (component_id_invalid cid = false <->
   exists digits, cid = 67%N :: digits /\ digits <> []
                  /\ Forall (fun c => PyUnicode.isdigit_cp c = true) digits)
  /\ (matches_component_pattern cid = true -> component_id_invalid cid = false)
  /\ (component_id_invalid cid = true ->
      forall trace,
        install_jlcpcb component_id trace
        = (Raise (AtoError (code_points "Component id " ++ cid
                            ++ code_points " is invalid. Aborting.")), trace))
  /\ (component_id_invalid cid = false ->
      forall trace, exists res rest,
        install_jlcpcb component_id trace = (res, trace ++ OpenRepo "." :: rest))
  /\ PyUnicode.upper "c123" = code_points "C123"
  /\ component_id_invalid (PyUnicode.upper "c123") = false
  /\ component_id_invalid (PyUnicode.upper "X123") = true
  /\ component_id_invalid (PyUnicode.upper "C12A") = true.
Proof.
  intros cid. split; [apply component_id_valid_iff|]. split; [|split; [|split]].
  - intros Hm. apply component_id_valid_iff.
    unfold matches_component_pattern in Hm.
    destruct cid as [|c [|d ds]]; try discriminate.
    apply andb_true_iff in Hm as [Hc Hd]. apply N.eqb_eq in Hc as ->.
    exists (d :: ds). split; [reflexivity|]. split; [discriminate|].
    apply Forall_forall. intros x Hx. apply ascii_digit_isdigit.
    rewrite forallb_forall in Hd. apply Hd. by apply list_elem_of_In.
  - intros Hinv trace. unfold install_jlcpcb. fold cid. by rewrite Hinv.
  - intros Hv trace. unfold install_jlcpcb. fold cid. rewrite Hv, act_run.
    match goal with
    | |- exists res rest, ?k _ = _ => assert (appends_only k) as Hk
    end.
    { destruct enclosing_repo as [repo|]; [|apply appends_only_raise].
      apply appends_only_bind; [apply appends_only_act | intros _].
      destruct (remote_url repo) as [url|]; [|apply appends_only_raise].
      cbv zeta. repeat (apply appends_only_bind; [apply appends_only_act | intros _]).
      match goal with
      | |- context [if ?b then _ else _] => destruct b
      end; [apply appends_only_act | apply appends_only_raise]. }
    destruct (Hk (trace ++ [OpenRepo "."])) as (res & rest & Hr).
    exists res, rest. rewrite Hr. by rewrite <- app_assoc.
  - repeat split; vm_compute; reflexivity.
Qed.

End FootprintInstallerProperties.

(** C9, the claim as stated, fails on a capital C followed by SUPERSCRIPT
    TWO: after uppercasing the id does not match [^C[0-9]+$], yet
    [str.isdigit] accepts the superscript, so the test of line 199 lets the
    id through, and the repository is opened and the converter run with it. *)
Lemma superscript_digit_passes_validation :
  matches_component_pattern (PyUnicode.upper Sample.c_superscript_two) = false
  /\ component_id_invalid (PyUnicode.upper Sample.c_superscript_two) = false
  /\ (install_jlcpcb (H := Sample.footprint_env) Sample.c_superscript_two []).1 = Return tt
  /\ head (install_jlcpcb (H := Sample.footprint_env) Sample.c_superscript_two []).2
     = Some (OpenRepo ".")
  /\ RunSubprocess
       [code_points "easyeda2kicad"; code_points "--full";
        code_points "--lcsc_id=" ++ [67; 178]%N;
        code_points "--output=/proj/elec/footprints/footprints";
        code_points "--overwrite"; code_points "--ato";
        code_points "--ato_file_path=/proj/elec/src"]
     ∈ (install_jlcpcb (H := Sample.footprint_env) Sample.c_superscript_two []).2.
Proof.
  repeat split; try (vm_compute; reflexivity).
  apply (list_elem_of_lookup_2 _ 3%nat). vm_compute. reflexivity.
Qed.

(** A fresh install of [pkg] from the remote whose only tag is [latest]. *)
Lemma untagged_pkg_install_raises :
  exists s',
    install_dependency (H := Sample.version_lib) (H0 := Sample.git_backend (Some Sample.untagged))
      (H1 := Sample.project_config) "pkg" "/proj" false Sample.empty_state
    = (Raise (UnboundLocalError "best_checkout"), s').
Proof.
  pose proof (reaches_by_clone (H := Sample.version_lib)
                (H0 := Sample.git_backend (Some Sample.untagged))
                (H1 := Sample.project_config) "pkg" "/proj" false
                Sample.empty_state "/proj/.ato/modules" Sample.untagged
                eq_refl ltac:(vm_compute; reflexivity) eq_refl) as Hreach.
  destruct (no_tags_fallback_raises (H := Sample.version_lib)
              (H0 := Sample.git_backend (Some Sample.untagged))
              (H1 := Sample.project_config)
              "pkg" "/proj" false _ _ _ _ Hreach) as (evs & Hinst & _);
    [vm_compute; reflexivity..|].
  eexists. exact Hinst.
Defined.


(** X3: an install whose constraint holds an at sign checks out the text after
    it, whatever the tags are, and returns [None]. *)
Lemma at_ref_install_returns_none `{VersionLib} `{GitBackend} `{ProjectConfig}
    (module top_level_path : string) (upgrade : bool)
    (s : State) (repo : string) (r r' : Repo) (s1 : State) :
  reaches_selection module top_level_path upgrade s repo r s1 ->
  PyStr.contains "@" (constraint_of module) = true ->
  repo_dirty r = false ->
  git_checkout (PyStr.strip_chars "@" (PyStr.strip (constraint_of module))) r = Some r' ->
  exists s',
    install_dependency module top_level_path upgrade s = (Return VNone, s')
    /\ repos s' !! repo = Some r'
    /\ GitCheckout repo (PyStr.strip_chars "@" (PyStr.strip (constraint_of module)))
       ∈ events s'.
Proof.
  intros Hreach Hat Hclean Hco.
  destruct (install_dependency_reaches _ _ _ _ _ _ _ Hreach) as [Hinst Hrepo].
  destruct (select_version_at (constraint_of module) (repo_tags r) s1 Hat)
    as (evs & Hsel & _).
  destruct (checkout_best_done (split_module_spec module).1 repo None
              (RefName (PyStr.strip_chars "@" (PyStr.strip (constraint_of module))))
              (with_events s1 evs) r r' Hrepo Hclean Hco) as [msg Hc].
  eexists. split; [|split].
  - rewrite Hinst, (resolve_and_checkout_run _ _ _ _ r Hrepo), Hsel. exact Hc.
  - apply lookup_insert_eq.
  - cbn [events ref_str]. apply elem_of_app. right. left.
Qed.

(** A fresh install of [pkg@main]. *)
Lemma pkg_at_main_returns_none :
  exists s',
    install_dependency (H := Sample.version_lib) (H0 := Sample.git_backend (Some Sample.released))
      (H1 := Sample.project_config) "pkg@main" "/proj" false Sample.empty_state
    = (Return VNone, s')
    /\ GitCheckout Sample.pkg_path "main" ∈ events s'.
Proof.
  pose proof (reaches_by_clone (H := Sample.version_lib)
                (H0 := Sample.git_backend (Some Sample.released))
                (H1 := Sample.project_config) "pkg@main" "/proj" false
                Sample.empty_state "/proj/.ato/modules" Sample.released
                eq_refl ltac:(vm_compute; reflexivity) eq_refl) as Hreach.
  destruct (at_ref_install_returns_none (H := Sample.version_lib)
              (H0 := Sample.git_backend (Some Sample.released))
              (H1 := Sample.project_config)
              "pkg@main" "/proj" false _ _ Sample.released
              (Sample.repo_with ["1.0.0"; "1.2.0"; "2.0.0"] false) _ Hreach)
    as (s' & Hinst & _ & Hev).
  - vm_compute. reflexivity.
  - reflexivity.
  - vm_compute. reflexivity.
  - exists s'. split; [exact Hinst | exact Hev].
Defined.

(** The at sign is in [name@1.2.3], and [find] gives its index. *)
Lemma find_at_sign_nonneg : 0 <= PyStr.find "@" "name@1.2.3".
Proof. apply find_nonneg_when_contained. vm_compute. reflexivity. Defined.

(** * Further properties of the installers *)

(** ** What [install_dependency] can do *)

Section InstallOutcome.
Context `{VersionLib} `{GitBackend} `{ProjectConfig}.

Lemma py_max_in (l : list Version) (m : Version) : py_max l = Some m -> m ∈ l.
Proof.
  destruct l as [|x l]; simpl; [discriminate|]. intros [= <-].
  revert x. induction l as [|y l IH]; intros x; simpl; [left|].
  destruct (version_gt y x).
  - right. apply IH.
  - pose proof (IH x) as Hx. apply elem_of_cons in Hx as [E|Hin];
      [rewrite E; left | right; by right].
Qed.

(** What version selection can give: the text after an at sign, a version
    with a tag that parses to it, nothing at all, or the error of [max]. *)
Lemma select_version_shape (module_spec : string) (tags : list string) (s s' : State)
    (res : Result (option Version * option Ref)) :
  select_version module_spec tags s = (res, s') ->
  res = Raise (ValueError "max() arg is an empty sequence")
  \/ res = Return (None, None)
  \/ (exists name, res = Return (None, Some (RefName name)))
  \/ (exists v tag, res = Return (Some v, Some (RefTag tag))
                    /\ version_parse tag = Some v /\ tag ∈ tags).
Proof.
  intros Hs.
  destruct (parse_tags_keys tags s) as (d & evs & Hr & Hok & Hk & Hdbg).
  unfold select_version, bind in Hs. rewrite Hr in Hs. unfold select_checkout in Hs.
  destruct (PyStr.contains "@" module_spec).
  - injection Hs as <- _. right. right. left. by eexists.
  - destruct d as [|p d'].
    + rewrite emit_run in Hs. injection Hs as <- _. right. by left.
    + destruct (py_max _) as [m|] eqn:Hmax; [|injection Hs as <- _; by left].
      apply py_max_in in Hmax. apply list_elem_of_filter in Hmax as [_ Hm].
      destruct (dict_get_is_Some m _ Hm) as [tag Hget]. rewrite Hget in Hs.
      injection Hs as <- _. right. right. right. exists m, tag.
      split; [reflexivity|]. by apply (dict_get_ok tags m tag _ Hok).
Qed.

(** Past the probe: either an exception with every working copy as it was,
    or a successful checkout that replaces the one working copy and returns
    [None] or a tag object. *)
Lemma resolve_and_checkout_outcome (module_name module_spec repo : string)
    (s : State) (r : Repo) :
  repos s !! repo = Some r ->
  exists res s' evs,
    resolve_and_checkout module_name module_spec repo s = (res, s')
    /\ dirs s' = dirs s
    /\ events s' = events s ++ evs
    /\ ((repos s' = repos s /\ exists e, res = Raise e)
        \/ (exists ref r',
              git_checkout ref r = Some r'
              /\ repo_dirty r = false
              /\ repos s' = <[repo := r']> (repos s)
              /\ GitCheckout repo ref ∈ evs
              /\ (res = Return VNone
                  \/ exists v tag, res = Return (VRef (RefTag tag))
                                   /\ ref = ref_str (RefTag tag)
                                   /\ version_parse tag = Some v /\ tag ∈ repo_tags r))).
Proof.
  intros Hr. rewrite (resolve_and_checkout_run _ _ _ _ r Hr).
  destruct (select_version module_spec (repo_tags r) s) as [sel s2] eqn:Hsel.
  destruct (select_version_frame _ _ _ _ _ Hsel) as (evs & -> & _).
  assert (repos (with_events s evs) !! repo = Some r) as Hr2 by exact Hr.
  destruct (select_version_shape _ _ _ _ _ Hsel) as [-> | Hshape].
  { exists (Raise (ValueError "max() arg is an empty sequence")), (with_events s evs), evs.
    repeat split. left. split; [done | by eexists]. }
  destruct (repo_dirty r) eqn:Hdirty.
  { assert (exists sel', sel = Return sel') as [sel' ->]
      by (destruct Hshape as [->|[(n & ->)|(v & t & -> & _)]]; by eexists).
    rewrite (checkout_best_dirty _ _ _ _ _ r Hr2 Hdirty).
    eexists _, (with_events s evs), evs. repeat split. left. split; [done | by eexists]. }
  destruct Hshape as [-> | [(name & ->) | (v & tag & -> & Hp & Ht)]]; cbn [fst snd].
  - rewrite (checkout_best_unbound _ _ _ _ r Hr2 Hdirty).
    eexists _, (with_events s evs), evs. repeat split. left. split; [done | by eexists].
  - destruct (git_checkout (ref_str (RefName name)) r) as [r'|] eqn:Hco.
    + destruct (checkout_best_done module_name repo None (RefName name) _ r r' Hr2 Hdirty Hco)
        as [msg ->].
      eexists _, _, (evs ++ [GitCheckout repo (ref_str (RefName name)); LogInfo msg]).
      split; [reflexivity|]. split; [reflexivity|].
      split; [cbn [events with_events]; by rewrite app_assoc|].
      right. exists (ref_str (RefName name)), r'. repeat split; try done.
      * apply elem_of_app. right. left.
      * by left.
    + rewrite (checkout_best_failed _ _ _ _ _ r Hr2 Hdirty Hco).
      eexists _, _, (evs ++ [GitCheckout repo (ref_str (RefName name))]).
      split; [reflexivity|]. split; [reflexivity|].
      split; [cbn [events with_events]; by rewrite app_assoc|].
      left. split; [done | by eexists].
  - destruct (git_checkout (ref_str (RefTag tag)) r) as [r'|] eqn:Hco.
    + destruct (checkout_best_done module_name repo (Some v) (RefTag tag) _ r r' Hr2 Hdirty Hco)
        as [msg ->].
      eexists _, _, (evs ++ [GitCheckout repo (ref_str (RefTag tag)); LogInfo msg]).
      split; [reflexivity|]. split; [reflexivity|].
      split; [cbn [events with_events]; by rewrite app_assoc|].
      right. exists (ref_str (RefTag tag)), r'. repeat split; try done.
      * apply elem_of_app. right. left.
      * destruct (version_truthy v); [right; by exists v, tag | by left].
    + rewrite (checkout_best_failed _ _ _ _ _ r Hr2 Hdirty Hco).
      eexists _, _, (evs ++ [GitCheckout repo (ref_str (RefTag tag))]).
      split; [reflexivity|]. split; [reflexivity|].
      split; [cbn [events with_events]; by rewrite app_assoc|].
      left. split; [done | by eexists].
Qed.

End InstallOutcome.

Section InstallCases.
Context `{VersionLib} `{GitBackend} `{ProjectConfig}.

(** Every run of [install_dependency], by the way it ends. *)
Lemma install_dependency_outcome (module top_level_path : string) (upgrade : bool) (s : State) :
  (abs_module_path top_level_path = None
   /\ install_dependency module top_level_path upgrade s = (Raise (ConfigError top_level_path), s))
  \/ exists modules_path res s' evs,
       abs_module_path top_level_path = Some modules_path
       /\ install_dependency module top_level_path upgrade s = (res, s')
       /\ dirs s' = {[modules_path]} ∪ dirs s
       /\ events s' = events s ++ evs
       /\ let repo := path_join modules_path (split_module_spec module).1 in
          ((is_Some (repos s !! repo) /\ upgrade = false /\ res = Return VNone
            /\ repos s' = repos s /\ Forall (fun e => ~ is_checkout e) evs)
           \/ ((exists e, res = Raise e) /\ repos s' = repos s
               /\ (repos s !! repo = None \/ upgrade = true))
           \/ (exists r, reaches_selection module top_level_path upgrade s repo r
                           {| dirs := dirs s'; repos := <[repo := r]> (repos s);
                              events := events s ++ take 2 evs |}
                 /\ ((repos s' = <[repo := r]> (repos s) /\ exists e, res = Raise e)
                     \/ (exists ref r',
                           git_checkout ref r = Some r'
                           /\ repo_dirty r = false
                           /\ repos s' = <[repo := r']> (repos s)
                           /\ GitCheckout repo ref ∈ evs
                           /\ (res = Return VNone
                               \/ exists v tag, res = Return (VRef (RefTag tag))
                                    /\ ref = ref_str (RefTag tag)
                                   /\ version_parse tag = Some v /\ tag ∈ repo_tags r))))).
Proof.
  destruct (abs_module_path top_level_path) as [mp|] eqn:Hcfg.
  2:{ left. split; [done|]. unfold install_dependency. by rewrite Hcfg. }
  right. exists mp.
  set (name := (split_module_spec module).1).
  set (repo := path_join mp name).
  assert (forall r s1, reaches_selection module top_level_path upgrade s repo r s1 ->
            exists evs0, s1 = {| dirs := {[mp]} ∪ dirs s; repos := <[repo := r]> (repos s);
                                 events := events s ++ evs0 |}
                         /\ length evs0 = 2%nat) as Hshape.
  { intros r s1 Hreach. destruct Hreach as [mp' r Hcfg' n rp url Hnone Hclone
                                           | mp' r0 r Hcfg' n rp Hsome Hup Hfetch];
      rewrite Hcfg in Hcfg'; injection Hcfg' as <-; by eexists. }
  assert (forall r s1, reaches_selection module top_level_path upgrade s repo r s1 ->
            exists res s' evs,
              install_dependency module top_level_path upgrade s = (res, s')
              /\ dirs s' = {[mp]} ∪ dirs s
              /\ events s' = events s ++ evs
              /\ reaches_selection module top_level_path upgrade s repo r
                   {| dirs := dirs s'; repos := <[repo := r]> (repos s);
                      events := events s ++ take 2 evs |}
              /\ ((repos s' = <[repo := r]> (repos s) /\ exists e, res = Raise e)
                  \/ (exists ref r',
                        git_checkout ref r = Some r'
                        /\ repo_dirty r = false
                        /\ repos s' = <[repo := r']> (repos s)
                        /\ GitCheckout repo ref ∈ evs
                        /\ (res = Return VNone
                            \/ exists v tag, res = Return (VRef (RefTag tag))
                                 /\ ref = ref_str (RefTag tag)
                                   /\ version_parse tag = Some v /\ tag ∈ repo_tags r)))) as Hpast.
  { intros r s1 Hreach.
    destruct (install_dependency_reaches _ _ _ _ _ _ _ Hreach) as [Hinst Hrepo].
    destruct (Hshape r s1 Hreach) as (evs0 & Hs1 & Hlen).
    destruct (resolve_and_checkout_outcome name (constraint_of module) repo s1 r Hrepo)
      as (res & s' & evs & Hres & Hdirs & Hevs & Hcases).
    exists res, s', (evs0 ++ evs). rewrite Hinst. split; [exact Hres|].
    assert (dirs s' = {[mp]} ∪ dirs s) as Hd by (rewrite Hdirs, Hs1; reflexivity).
    split; [exact Hd|].
    split; [rewrite Hevs, Hs1; cbn [events]; by rewrite app_assoc|].
    split.
    { rewrite take_app_length' by (symmetry; exact Hlen). rewrite Hd. rewrite <- Hs1. exact Hreach. }
    destruct Hcases as [[Hsame He] | (ref & r' & Hco & Hclean & Hrepos & Hin & Hval)].
    - left. split; [|exact He]. rewrite Hsame, Hs1. reflexivity.
    - right. exists ref, r'. split; [exact Hco|]. split; [exact Hclean|].
      split; [rewrite Hrepos, Hs1; cbn [repos]; by rewrite insert_insert_eq|].
      split; [apply elem_of_app; by right | exact Hval]. }
  destruct (repos s !! repo) as [r0|] eqn:Hprobe.
  - destruct upgrade.
    + destruct (origin_fetch r0) as [r|] eqn:Hfetch.
      * destruct (Hpast r _ (reaches_by_fetch module top_level_path true s mp r0 r
                               Hcfg Hprobe eq_refl Hfetch))
          as (res & s' & evs & Hinst & Hd & He & Hreach & Hcases).
        exists res, s', evs. repeat (split; [done|]). right. right. by exists r.
      * eexists _, _, _. split; [reflexivity|]. split.
        { unfold install_dependency. rewrite Hcfg.
          unfold bind at 1, mkdir, modify. unfold bind at 1, get. cbn [dirs repos events].
          fold name. fold repo. rewrite Hprobe. rewrite !emit_run. rewrite Hfetch.
          reflexivity. }
        cbn [with_events dirs repos events]. split; [reflexivity|].
        split; [by rewrite <- app_assoc|].
        right. left. split; [by eexists|]. split; [reflexivity | by right].
    + eexists _, _, _. split; [reflexivity|]. split.
      { unfold install_dependency. rewrite Hcfg.
        unfold bind at 1, mkdir, modify. unfold bind at 1, get. cbn [dirs repos events].
        fold name. fold repo. rewrite Hprobe. rewrite emit_run. reflexivity. }
      cbn [with_events dirs repos events]. split; [reflexivity|]. split; [reflexivity|].
      left. split; [by eexists|]. repeat split.
      constructor; [simpl; tauto | constructor].
  - destruct (remote_clone ("https://gitlab.atopile.io/packages/" +:+ name)) as [r|] eqn:Hclone.
    + destruct (Hpast r _ (reaches_by_clone module top_level_path upgrade s mp r
                             Hcfg Hprobe Hclone))
        as (res & s' & evs & Hinst & Hd & He & Hreach & Hcases).
      exists res, s', evs. repeat (split; [done|]). right. right. by exists r.
    + eexists _, _, _. split; [reflexivity|]. split.
      { unfold install_dependency. rewrite Hcfg.
        unfold bind at 1, mkdir, modify. unfold bind at 1, get. cbn [dirs repos events].
        fold name. fold repo. rewrite Hprobe. rewrite !emit_run. rewrite Hclone.
        reflexivity. }
      cbn [with_events dirs repos events]. split; [reflexivity|].
      split; [by rewrite <- app_assoc|].
      right. left. split; [by eexists|]. split; [reflexivity | by left].
Qed.

End InstallCases.

Section InstallGuarantees.
Context `{VersionLib} `{GitBackend} `{ProjectConfig}.

Lemma install_dependency_present_no_upgrade (module top_level_path modules_path : string)
    (s : State) (r : Repo) :
  abs_module_path top_level_path = Some modules_path ->
  repos s !! path_join modules_path (split_module_spec module).1 = Some r ->
  install_dependency module top_level_path false s
  = (Return VNone,
     {| dirs := {[modules_path]} ∪ dirs s;
        repos := repos s;
        events := events s ++ [LogInfo ((split_module_spec module).1
                      +:+ " already exists. If you wish to upgrade, use --upgrade")] |}).
Proof.
  intros Hcfg Hrepo. unfold install_dependency. rewrite Hcfg.
  unfold bind at 1, mkdir, modify. unfold bind at 1, get. cbn [dirs repos events].
  rewrite Hrepo. rewrite emit_run. reflexivity.
Qed.


(** X6: a normal return of [install_dependency] carries [None] or the tag
    object that was checked out -- a tag of the working copy that parses to
    a version -- and never a version; and it comes either from the early
    return, with every working copy as it was, or after a successful
    checkout on a clean working copy. *)
Theorem install_dependency_return_value (module top_level_path : string)
    (upgrade : bool) (s s' : State) (val : Value) :
  install_dependency module top_level_path upgrade s = (Return val, s') ->
  exists modules_path,
    abs_module_path top_level_path = Some modules_path
    /\ let repo := path_join modules_path (split_module_spec module).1 in
       (val = VNone
        \/ exists tag v, val = VRef (RefTag tag)
                         /\ version_parse tag = Some v
                         /\ GitCheckout repo tag ∈ events s')
       /\ ((upgrade = false /\ is_Some (repos s !! repo) /\ repos s' = repos s)
           \/ exists r r' ref,
                repo_dirty r = false
                /\ git_checkout ref r = Some r'
                /\ repos s' !! repo = Some r').
Proof.
  intros Hinst.
  destruct (install_dependency_outcome module top_level_path upgrade s)
    as [[_ Hr] | (mp & res & s2 & evs & Hcfg & Hr & _ & Hev & Hcases)];
    rewrite Hinst in Hr; [discriminate Hr|].
  injection Hr as <- <-. exists mp. split; [exact Hcfg|]. cbv zeta in *.
  destruct Hcases as [(Hsome & Hup & [= ->] & Hsame & _)
                     | [([e He] & _) | (r & _ & Hpast)]]; [|discriminate He|].
  - split; [by left|]. left. done.
  - destruct Hpast as [[_ [e He]] | (ref & r' & Hco & Hclean & Hrepos & Hin & Hval)];
      [discriminate He|].
    split.
    + destruct Hval as [[= ->] | (v & tag & [= ->] & -> & Hp & _)]; [by left|].
      right. exists tag, v. repeat split; [done|].
      rewrite Hev. apply elem_of_app. by right.
    + right. exists r, r', ref. repeat split; [done..|].
      rewrite Hrepos. apply lookup_insert_eq.
Qed.

(** X7: once a clone has been made, the working copy stays in place
    whatever happens next, so a second run without [upgrade] returns [None]
    and changes no working copy -- also when the first run raised (no
    matching version, no tags, local changes, a failed checkout). *)
Theorem install_dependency_retry_is_silent (module top_level_path modules_path : string)
    (upgrade : bool) (s : State) (r : Repo) :
  abs_module_path top_level_path = Some modules_path ->
  repos s !! path_join modules_path (split_module_spec module).1 = None ->
  remote_clone ("https://gitlab.atopile.io/packages/" +:+ (split_module_spec module).1)
    = Some r ->
  exists res s' s'',
    install_dependency module top_level_path upgrade s = (res, s')
    /\ install_dependency module top_level_path false s' = (Return VNone, s'')
    /\ repos s'' = repos s'
    /\ dirs s'' = dirs s'
    /\ events s'' = events s' ++ [LogInfo ((split_module_spec module).1
                       +:+ " already exists. If you wish to upgrade, use --upgrade")].
Proof.
  intros Hcfg Hnone Hclone.
  pose proof (reaches_by_clone module top_level_path upgrade s modules_path r
                Hcfg Hnone Hclone) as Hreach.
  destruct (install_dependency_reaches _ _ _ _ _ _ _ Hreach) as [Hinst Hrepo].
  destruct (resolve_and_checkout_outcome (split_module_spec module).1 (constraint_of module)
              _ _ r Hrepo) as (res & s' & evs & Hres & Hdirs & _ & Hcases).
  assert (exists rf, repos s' !! path_join modules_path (split_module_spec module).1 = Some rf)
    as [rf Hrf].
  { destruct Hcases as [[-> _] | (ref & r' & _ & _ & -> & _)].
    - by exists r.
    - exists r'. apply lookup_insert_eq. }
  exists res, s'. eexists. split; [by rewrite Hinst|].
  split; [apply (install_dependency_present_no_upgrade _ _ _ _ rf Hcfg Hrf)|].
  cbn [dirs repos events]. repeat split. rewrite Hdirs. cbn [dirs].
  apply leibniz_equiv. rewrite (assoc_L (∪)). by rewrite union_idemp_L.
Qed.

End InstallGuarantees.

(** ** Tags that name the same version *)

Section SameVersionTags.
Context `{VersionLib}.

Lemma dict_get_set_eq (k : Version) (t : string) (d : list (Version * string)) :
  dict_get k (dict_set k t d) = Some t.
Proof.
  induction d as [|[k' t'] d IH]; simpl.
  - by rewrite decide_True.
  - destruct (decide (k' = k)) as [->|Hne]; simpl.
    + by rewrite decide_True.
    + by rewrite decide_False.
Qed.

Lemma dict_get_set_ne (k k' : Version) (t : string) (d : list (Version * string)) :
  k <> k' -> dict_get k' (dict_set k t d) = dict_get k' d.
Proof.
  intros Hne. induction d as [|[k0 t0] d IH]; simpl.
  - by rewrite decide_False.
  - destruct (decide (k0 = k)) as [->|Hne0]; simpl.
    + by rewrite !decide_False.
    + destruct (decide (k0 = k')); [done | exact IH].
Qed.

(** After the tag loop, a version maps to the last tag that parses to it. *)
Lemma parse_tags_get (tags : list string) (d d' : list (Version * string)) (s s' : State)
    (v : Version) :
  parse_tags tags d s = (Return d', s') ->
  dict_get v d' = match last (filter (fun t => version_parse t = Some v) tags) with
                  | Some t => Some t
                  | None => dict_get v d
                  end.
Proof.
  revert d s. induction tags as [|tag tags IH]; intros d s Hrun; simpl in Hrun.
  - injection Hrun as <- _. reflexivity.
  - destruct (version_parse tag) as [k|] eqn:Hp.
    + rewrite (IH _ _ Hrun). destruct (decide (k = v)) as [->|Hne].
      * rewrite filter_cons_True by exact Hp. rewrite last_cons.
        destruct (last _); [reflexivity | apply dict_get_set_eq].
      * rewrite filter_cons_False by (rewrite Hp; congruence).
        destruct (last _); [reflexivity | by apply dict_get_set_ne].
    + rewrite emit_run in Hrun. rewrite (IH _ _ Hrun).
      rewrite filter_cons_False by (rewrite Hp; discriminate). reflexivity.
Qed.

Lemma select_checkout_tag (module_spec : string) (d : list (Version * string))
    (s s' : State) (v : Version) (tag : string) :
  select_checkout module_spec d s = (Return (Some v, Some (RefTag tag)), s') ->
  dict_get v d = Some tag.
Proof.
  unfold select_checkout. destruct (PyStr.contains "@" module_spec); [discriminate|].
  destruct d as [|p d']; [rewrite emit_run; discriminate|].
  destruct (py_max _) as [m|]; [|discriminate].
  destruct (dict_get m (p :: d')) as [t|] eqn:Hget; [|discriminate].
  intros [= <- <- _]. exact Hget.
Qed.

(** X8: when several tags of the working copy parse to the selected
    version, the tag that is checked out is the last of them in the order
    [repo.tags] lists them. *)
Theorem selection_takes_last_tag_of_version (module_spec : string) (tags : list string)
    (s s' : State) (v : Version) (tag : string) :
  select_version module_spec tags s = (Return (Some v, Some (RefTag tag)), s') ->
  last (filter (fun t => version_parse t = Some v) tags) = Some tag.
Proof.
  unfold select_version, bind. intros Hsel.
  destruct (parse_tags tags [] s) as [[d|e] s1] eqn:Hrun; [|discriminate].
  apply select_checkout_tag in Hsel.
  rewrite (parse_tags_get _ _ _ _ _ v Hrun) in Hsel.
  destruct (last _); [exact Hsel | discriminate].
Qed.

End SameVersionTags.

(** Two tags for the version 1.2.0: the later one is taken. *)
Lemma later_tag_of_1_2_0_is_taken :
  last (filter (fun t => version_parse (VersionLib := Sample.version_lib) t = Some (1, 2, 0)%N)
               ["1.2.0"; "1.0.0"; "01.2.0"])
  = Some "01.2.0".
Proof.
  apply (selection_takes_last_tag_of_version (H := Sample.version_lib)
           "*" ["1.2.0"; "1.0.0"; "01.2.0"] Sample.empty_state Sample.empty_state).
  vm_compute. reflexivity.
Defined.

(** ** [install_dependencies_from_yaml] *)

Section BulkInstallerProperties.
Context `{VersionLib} `{GitBackend} `{ProjectConfigFile}.

Lemma install_each_app (pre post : list string) (top_level_path : string)
    (upgrade : bool) (s : State) :
  install_each (pre ++ post) top_level_path upgrade s
  = match install_each pre top_level_path upgrade s with
    | (Return _, s1) => install_each post top_level_path upgrade s1
    | (Raise e, s1) => (Raise e, s1)
    end.
Proof.
  revert s. induction pre as [|d pre IH]; intros s; [reflexivity|].
  simpl. unfold bind.
  destruct (install_dependency d top_level_path upgrade s) as [[v|e] s1]; [apply IH | reflexivity].
Qed.

(** X9: the batch stops at the first dependency whose install raises: the
    exception is the batch's, the state is the one that install left, and
    the dependencies listed after it are not attempted. *)
Theorem install_dependencies_stop_at_first_failure (top_level_path : string)
    (upgrade : bool) (cfg : ProjectCfg) (pre post : list string) (d : string)
    (s s1 s2 : State) (e : Exn) :
  get_project_config_from_path top_level_path = Some cfg ->
  cfg_dependencies cfg = pre ++ d :: post ->
  install_each pre top_level_path upgrade s = (Return tt, s1) ->
  install_dependency d top_level_path upgrade s1 = (Raise e, s2) ->
  install_dependencies_from_yaml top_level_path upgrade s = (Raise e, s2).
Proof.
  intros Hcfg Hdeps Hpre Hd. unfold install_dependencies_from_yaml.
  rewrite Hcfg, Hdeps, install_each_app, Hpre. simpl. unfold bind. by rewrite Hd.
Qed.

(** X10: without [upgrade], on a project where every declared dependency
    already has its working copy, the batch returns normally, logs one line
    per dependency, issues no git command and leaves every working copy as
    it was. *)
Theorem install_dependencies_all_present (top_level_path : string) (cfg : ProjectCfg)
    (s : State) :
  get_project_config_from_path top_level_path = Some cfg ->
  (forall d, d ∈ cfg_dependencies cfg ->
             is_Some (repos s !! path_join (cfg_abs_module_path cfg) (split_module_spec d).1)) ->
  exists s',
    install_dependencies_from_yaml top_level_path false s = (Return tt, s')
    /\ repos s' = repos s
    /\ events s' = events s
         ++ ((fun d => LogInfo ((split_module_spec d).1
                 +:+ " already exists. If you wish to upgrade, use --upgrade"))
             <$> cfg_dependencies cfg)
    /\ (forall x, x ∈ dirs s' -> x = cfg_abs_module_path cfg \/ x ∈ dirs s).
Proof.
  intros Hcfg Hall. unfold install_dependencies_from_yaml. rewrite Hcfg.
  assert (abs_module_path top_level_path = Some (cfg_abs_module_path cfg)) as Hpath
    by (simpl; by rewrite Hcfg).
  clear Hcfg. revert s Hall.
  induction (cfg_dependencies cfg) as [|d deps IH]; intros s Hall.
  - exists s. simpl. rewrite app_nil_r. repeat split. intros x Hx. by right.
  - destruct (Hall d) as [r Hr]; [left|].
    simpl. unfold bind.
    rewrite (install_dependency_present_no_upgrade d _ _ s r Hpath Hr).
    destruct (IH {| dirs := {[cfg_abs_module_path cfg]} ∪ dirs s; repos := repos s;
                    events := events s ++ [LogInfo ((split_module_spec d).1
                      +:+ " already exists. If you wish to upgrade, use --upgrade")] |})
      as (s' & Hrun & Hrepos & Hev & Hdirs).
    { intros d' Hd'. cbn [repos]. apply Hall. by right. }
    exists s'. split; [exact Hrun|]. split; [exact Hrepos|]. split.
    + rewrite Hev. cbn [events]. by rewrite <- app_assoc.
    + intros x Hx. destruct (Hdirs x Hx) as [->|Hin]; [by left|].
      cbn [dirs] in Hin. apply elem_of_union in Hin as [Hin%elem_of_singleton|Hin];
        [by left | by right].
Qed.

End BulkInstallerProperties.

(** ** Runs of the installers in the sample environment *)


(** What a fresh install of [pkg^1.0.0] returns. *)
Lemma pkg_install_return_value :
  exists val s',
    install_dependency (H := Sample.version_lib)
      (H0 := Sample.git_backend (Some Sample.released))
      (H1 := Sample.project_config) "pkg^1.0.0" "/proj" false Sample.empty_state
    = (Return val, s')
    /\ exists tag, val = VRef (RefTag tag)
                   /\ version_parse (VersionLib := Sample.version_lib) tag = Some (1, 2, 0)%N.
Proof.
  destruct (install_dependency (H := Sample.version_lib)
              (H0 := Sample.git_backend (Some Sample.released))
              (H1 := Sample.project_config) "pkg^1.0.0" "/proj" false Sample.empty_state)
    as [res s'] eqn:Hrun.
  assert (res = Return (VRef (RefTag "1.2.0"))) as ->
    by (vm_compute in Hrun; by injection Hrun as <- _).
  destruct (install_dependency_return_value (H := Sample.version_lib)
              (H0 := Sample.git_backend (Some Sample.released))
              (H1 := Sample.project_config) _ _ _ _ _ _ Hrun)
    as (mp & _ & [[Hnone | (tag & v & Hval & Hp & _)] _]); [discriminate Hnone|].
  exists (VRef (RefTag "1.2.0")), s'. split; [reflexivity|].
  exists tag. split; [exact Hval|]. injection Hval as <-. vm_compute. reflexivity.
Defined.

(** A fresh install of [pkg^9.0.0] fails; the retry returns [None]. *)
Lemma failed_install_then_retry :
  exists res s' s'',
    install_dependency (H := Sample.version_lib)
      (H0 := Sample.git_backend (Some Sample.released))
      (H1 := Sample.project_config) "pkg^9.0.0" "/proj" false Sample.empty_state
    = (res, s')
    /\ res = Raise (ValueError "max() arg is an empty sequence")
    /\ install_dependency (H := Sample.version_lib)
         (H0 := Sample.git_backend (Some Sample.released))
         (H1 := Sample.project_config) "pkg^9.0.0" "/proj" false s'
       = (Return VNone, s'')
    /\ repos s'' = repos s'.
Proof.
  destruct (install_dependency_retry_is_silent (H := Sample.version_lib)
              (H0 := Sample.git_backend (Some Sample.released))
              (H1 := Sample.project_config)
              "pkg^9.0.0" "/proj" "/proj/.ato/modules" false Sample.empty_state Sample.released)
    as (res & s' & s'' & Hfirst & Hsecond & Hrepos & _).
  - reflexivity.
  - vm_compute. reflexivity.
  - reflexivity.
  - exists res, s', s''. split; [exact Hfirst|]. split; [|split; [exact Hsecond | exact Hrepos]].
    vm_compute in Hfirst. by injection Hfirst as <- _.
Defined.

(** A batch of three where the second has no matching release: the third
    is never cloned. *)
Lemma batch_stops_at_second :
  exists s2,
    install_dependencies_from_yaml (H := Sample.version_lib)
      (H0 := Sample.git_backend (Some Sample.released))
      (H1 := SampleProject.config_file ["pkg^1.0.0"; "other^9.0.0"; "third"])
      "/proj" false Sample.empty_state
    = (Raise (ValueError "max() arg is an empty sequence"), s2)
    /\ repos s2 !! "/proj/.ato/modules/third" = None.
Proof.
  destruct (install_each (H := Sample.version_lib)
              (H0 := Sample.git_backend (Some Sample.released))
              (H1 := SampleProject.config_file ["pkg^1.0.0"; "other^9.0.0"; "third"])
              ["pkg^1.0.0"] "/proj" false Sample.empty_state) as [r1 s1] eqn:H1.
  assert (r1 = Return tt) as -> by (vm_compute in H1; by injection H1 as <- _).
  destruct (install_dependency (H := Sample.version_lib)
              (H0 := Sample.git_backend (Some Sample.released))
              (H1 := config_paths
                       (H := SampleProject.config_file ["pkg^1.0.0"; "other^9.0.0"; "third"]))
              "other^9.0.0" "/proj" false s1) as [r2 s2] eqn:H2.
  assert (r2 = Raise (ValueError "max() arg is an empty sequence")
          /\ repos s2 !! "/proj/.ato/modules/third" = None) as [-> Hthird].
  { assert (s1 = (install_each (H := Sample.version_lib)
                    (H0 := Sample.git_backend (Some Sample.released))
                    (H1 := SampleProject.config_file ["pkg^1.0.0"; "other^9.0.0"; "third"])
                    ["pkg^1.0.0"] "/proj" false Sample.empty_state).2) as Hs1
      by (by rewrite H1).
    rewrite Hs1 in H2. vm_compute in H2. injection H2 as <- <-. split; reflexivity. }
  exists s2. split; [|exact Hthird].
  apply (install_dependencies_stop_at_first_failure (H := Sample.version_lib)
           (H0 := Sample.git_backend (Some Sample.released))
           (H1 := SampleProject.config_file ["pkg^1.0.0"; "other^9.0.0"; "third"])
           "/proj" false _ ["pkg^1.0.0"] ["third"] "other^9.0.0" Sample.empty_state s1 s2 _
           eq_refl eq_refl H1 H2).
Defined.

(** The batch on a project whose two dependencies are installed. *)
Lemma batch_on_installed_project :
  exists s',
    install_dependencies_from_yaml (H := Sample.version_lib)
      (H0 := Sample.git_backend (Some Sample.released))
      (H1 := SampleProject.config_file ["pkg^1.0.0"; "other"])
      "/proj" false SampleProject.two_installed
    = (Return tt, s')
    /\ repos s' = repos SampleProject.two_installed.
Proof.
  destruct (install_dependencies_all_present (H := Sample.version_lib)
              (H0 := Sample.git_backend (Some Sample.released))
              (H1 := SampleProject.config_file ["pkg^1.0.0"; "other"])
              "/proj" _ SampleProject.two_installed eq_refl)
    as (s' & Hrun & Hrepos & _).
  - intros d Hd. cbn [cfg_dependencies cfg_abs_module_path] in *.
    repeat (apply elem_of_cons in Hd as [-> | Hd]; [vm_compute; by eexists|]).
    by apply elem_of_nil in Hd.
  - exists s'. split; [exact Hrun | exact Hrepos].
Defined.

(** ** More on [set_dependency_to_ato_yaml] and [split_module_spec] *)

Section ManifestEditorGuarantees.
Context `{VersionLib} `{YamlLib}.

Local Abbreviation name_of := (fun x : string => (split_module_spec x).1).

(** X11: a missing manifest is reported as [AtoError] and no file is
    created.  On a manifest that exists and loads to a mapping whose
    [dependencies] key is absent or a list of strings (the manifests
    [yaml_safe_load] covers), lines 85-101 complete without an exception
    -- the [list.remove] of line 95 cannot raise, the entry it removes having
    just been read from the list -- and only [ato.yaml] can have been
    written. *)
Theorem set_dependency_missing_or_edited (top_level_path module_spec : string)
    (files : gmap string FileContent) :
  (files !! path_join top_level_path "ato.yaml" = None ->
   set_dependency_to_ato_yaml top_level_path module_spec files
   = (Raise (AtoError (code_points ("ato.yaml not found in " +:+ top_level_path))), files))
  /\ (is_Some (files !! path_join top_level_path "ato.yaml") ->
      exists files',
        set_dependency_to_ato_yaml top_level_path module_spec files = (Return tt, files')
        /\ is_Some (files' !! path_join top_level_path "ato.yaml")
        /\ forall p, p <> path_join top_level_path "ato.yaml" -> files' !! p = files !! p).
Proof.
  split.
  - intros Hnone. unfold set_dependency_to_ato_yaml, bind, get. by rewrite Hnone.
  - intros [content Hf].
    destruct (update_dependencies_cases (manifest_dependencies top_level_path files) module_spec)
      as [(_ & d & Hu & _) | (_ & kept & Hu & _)];
      rewrite (set_dependency_run _ _ _ _ _ _ Hf Hu); eexists; (split; [reflexivity|]).
    + split; [by eexists | done].
    + split; [rewrite lookup_insert_eq; by eexists|].
      intros p Hp. by rewrite lookup_insert_ne.
Qed.

(** X12: adding a spec leaves the entries of every other package in the
    manifest, in their order, and leaves the other keys of the manifest as
    they were. *)
Theorem set_dependency_keeps_other_packages `{!YamlRoundTrip}
    (top_level_path module_spec : string)
    (files : gmap string FileContent) (content : FileContent) :
  files !! path_join top_level_path "ato.yaml" = Some content ->
  exists files' content',
    set_dependency_to_ato_yaml top_level_path module_spec files = (Return tt, files')
    /\ files' !! path_join top_level_path "ato.yaml" = Some content'
    /\ filter (fun x => name_of x <> name_of module_spec)
              (manifest_dependencies top_level_path files')
       = filter (fun x => name_of x <> name_of module_spec)
                (manifest_dependencies top_level_path files)
    /\ other_keys (default empty_yaml (yaml_safe_load content'))
       = other_keys (default empty_yaml (yaml_safe_load content)).
Proof.
  intros Hf.
  destruct (update_dependencies_cases (manifest_dependencies top_level_path files) module_spec)
    as [(_ & d & Hu & _) | (_ & kept & Hu & Hk)];
    rewrite (set_dependency_run _ _ _ _ _ _ Hf Hu).
  - exists files, content. done.
  - eexists _, _. split; [reflexivity|]. split; [apply lookup_insert_eq|].
    rewrite manifest_dependencies_written, load_dump. split; [|reflexivity].
    rewrite filter_app.
    rewrite (filter_cons_False _ module_spec []) by (intros Hne; by apply Hne).
    rewrite filter_nil, app_nil_r.
    destruct Hk as [[-> _] | (old & l1 & l2 & -> & -> & _ & Hname & _)]; [reflexivity|].
    rewrite !filter_app. f_equal.
    rewrite filter_cons_False; [reflexivity|]. intros Hne. by apply Hne.
Qed.

(** X13: [split_module_spec] gives no constraint exactly when none of the
    candidate tokens occurs in the string, and then the name is the string
    itself, untrimmed; a string that holds a space or an at sign is always
    split. *)
Theorem split_module_spec_none_iff (spec : string) :
  ((split_module_spec spec).2 = None <-> forall t, t ∈ splitters -> ~ occurs t spec)
  /\ ((split_module_spec spec).2 = None -> (split_module_spec spec).1 = spec)
  /\ (occurs " " spec \/ occurs "@" spec -> is_Some (split_module_spec spec).2).
Proof.
  assert (forall cands, (split_loop cands spec).2 = None ->
                        forall t, t ∈ cands -> ~ occurs t spec) as Hloop.
  { induction cands as [|c cands IH]; intros Hnone t Ht; [by apply elem_of_nil in Ht|].
    simpl in Hnone. destruct (PyStr.contains c spec) eqn:Hc.
    - assert (0 <= PyStr.find c spec) as Hpos.
      { unfold PyStr.find.
        destruct (find_from_spec c spec 0) as [(Hc' & _) | (_ & i & -> & _)];
          [congruence | lia]. }
      destruct (PyStr.find c spec <? 0) eqn:E; [apply Z.ltb_lt in E; lia|].
      discriminate Hnone.
    - apply elem_of_cons in Ht as [->|Ht]; [by apply contains_false_not_occurs|].
      by apply IH. }
  assert ((split_module_spec spec).2 = None <-> forall t, t ∈ splitters -> ~ occurs t spec)
    as Hiff.
  { split; [apply Hloop|]. intros Hn.
    unfold split_module_spec. by rewrite split_loop_none. }
  split; [exact Hiff|]. split.
  - intros Hnone. unfold split_module_spec. rewrite split_loop_none; [reflexivity|].
    by apply Hiff.
  - intros Hocc. destruct (split_module_spec spec).2 eqn:E; [by eexists|].
    exfalso. pose proof (proj1 Hiff eq_refl) as Hn.
    destruct Hocc as [Ho|Ho]; revert Ho; apply Hn; unfold splitters;
      apply elem_of_app; right; [left | right; left].
Qed.

End ManifestEditorGuarantees.

(** Adding [tool^1.0.0] to a manifest that lists two other packages and a
    further key. *)
Lemma other_entries_stay_in_order :
  exists files' content',
    set_dependency_to_ato_yaml (H := Sample.version_lib) (H0 := Sample.yaml_lib)
      "/proj" "b^2.0.0" (Sample.manifest ["a^1.0.0"; "b^1.0.0"; "c>=3.0"])
    = (Return tt, files')
    /\ files' !! "/proj/ato.yaml" = Some content'
    /\ manifest_dependencies (H := Sample.yaml_lib) "/proj" files'
       = ["a^1.0.0"; "c>=3.0"; "b^2.0.0"].
Proof.
  destruct (set_dependency_keeps_other_packages (H := Sample.version_lib)
              (H0 := Sample.yaml_lib) (H1 := sample_yaml_round_trip)
              "/proj" "b^2.0.0" (Sample.manifest ["a^1.0.0"; "b^1.0.0"; "c>=3.0"])
              {| dependencies := Some ["a^1.0.0"; "b^1.0.0"; "c>=3.0"]; other_keys := ∅ |})
    as (files' & content' & Hrun & Hf & _).
  - vm_compute. reflexivity.
  - exists files', content'. split; [exact Hrun|]. split; [exact Hf|].
    assert (files' = (set_dependency_to_ato_yaml (H := Sample.version_lib)
                        (H0 := Sample.yaml_lib) "/proj" "b^2.0.0"
                        (Sample.manifest ["a^1.0.0"; "b^1.0.0"; "c>=3.0"])).2) as ->
      by (by rewrite Hrun).
    vm_compute. reflexivity.
Defined.

(** ** The rest of [install_jlcpcb] *)

Section FootprintInstallerGuarantees.
Context `{FootprintEnv}.

(** X14: [install_jlcpcb] runs the converter exactly when the uppercased id
    passes the test and the enclosing repository and its remote are found,
    then exactly once, with the uppercased id and the footprints directory
    chosen by the remote URL; it prints both output streams whatever the
    exit code, returns normally when the exit code is 0 and raises
    [AtoError] otherwise.  In every other case it raises without running
    any subprocess. *)
Theorem install_jlcpcb_runs_converter_once (component_id : string) (trace : list Action) :
  let cid := PyUnicode.upper component_id in
  (forall repo url,
     component_id_invalid cid = false ->
     enclosing_repo = Some repo ->
     remote_url repo = Some url ->
     let command := converter_command (working_tree_dir repo) url cid in
     let result := subprocess_run command in
     install_jlcpcb component_id trace
     = (if result.1.1 =? 0 then Return tt
        else Raise (AtoError (code_points "Couldn't install component")),
        trace ++ [OpenRepo "."; ReadRemoteUrl;
                  LogFootprintsDir ("Footprints directory: "
                                    +:+ footprints_dir_for (working_tree_dir repo) url);
                  RunSubprocess command;
                  PrintLine ("STDOUT: " +:+ result.1.2);
                  PrintLine ("STDERR: " +:+ result.2)]
               ++ (if result.1.1 =? 0 then [PrintLine "Command executed successfully"]
                   else [])))
  /\ (component_id_invalid cid = true
      \/ enclosing_repo = None
      \/ (exists repo, enclosing_repo = Some repo /\ remote_url repo = None) ->
      exists e rest,
        install_jlcpcb component_id trace = (Raise e, trace ++ rest)
        /\ Forall (fun a => ~ is_subprocess a) rest).
Proof.
  intros cid. split.
  - intros repo url Hvalid Hrepo Hurl command result.
    unfold install_jlcpcb. fold cid. rewrite Hvalid, Hrepo, act_run, act_run, Hurl.
    cbv zeta. fold (footprints_dir_for (working_tree_dir repo) url).
    fold (converter_command (working_tree_dir repo) url cid). fold command. fold result.
    rewrite !act_run. rewrite <- !app_assoc. cbn [app].
    destruct (result.1.1 =? 0); unfold act, modify, raise;
      rewrite <- ?app_assoc; reflexivity.
  - intros Hbad. unfold install_jlcpcb. fold cid.
    destruct (component_id_invalid cid) eqn:Hinv.
    { eexists _, []. unfold raise. rewrite app_nil_r. split; [reflexivity | constructor]. }
    rewrite act_run.
    destruct Hbad as [Hbad | [Hnone | (repo & Hrepo & Hnone)]]; [discriminate Hbad | |].
    + rewrite Hnone. eexists _, [OpenRepo "."]. split; [reflexivity|].
      constructor; [simpl; tauto | constructor].
    + rewrite Hrepo, act_run, Hnone. unfold raise. rewrite <- app_assoc.
      eexists _, _. split; [reflexivity|].
      repeat (constructor; [simpl; tauto|]). constructor.
Qed.

End FootprintInstallerGuarantees.

(** Installing the footprint of [c123] in the sample project. *)
Lemma c123_converter_run :
  install_jlcpcb (H := Sample.footprint_env) "c123" []
  = (Return tt,
     [OpenRepo "."; ReadRemoteUrl;
      LogFootprintsDir "Footprints directory: /proj/elec/footprints/footprints";
      RunSubprocess (converter_command "/proj" "git@example.org:me/proj.git"
                       (code_points "C123"));
      PrintLine "STDOUT: ok"; PrintLine "STDERR: ";
      PrintLine "Command executed successfully"]).
Proof.
  apply (proj1 (install_jlcpcb_runs_converter_once (H := Sample.footprint_env) "c123" [])
           {| working_tree_dir := "/proj"; remote_url := Some "git@example.org:me/proj.git" |}
           "git@example.org:me/proj.git");
    reflexivity.
Defined.

(** ** [install], the command *)

Section CommandProperties.
Context `{VersionLib} `{!VersionStr} `{GitBackend} `{ProjectConfigFile}
        `{YamlLib} `{FootprintEnv}.

Lemma done_keeps (p : Project FileContent) :
  (done p).1 = Done
  /\ files (done p).2 = files p
  /\ outside (done p).2 = outside p
  /\ repos (modules (done p).2) = repos (modules p)
  /\ dirs (modules (done p).2) = dirs (modules p)
  /\ events (modules (done p).2)
     = events (modules p) ++ [LogInfo "[green]Done![/] :call_me_hand:"].
Proof. repeat split. Qed.

(** X15: the command calls the manifest editor, and so rewrites an
    [ato.yaml], in one situation only: it was given a non-empty spec without
    [--jlcpcb], the enclosing repository was found, and [install_dependency]
    returned normally.  In every other run -- no enclosing repository, a
    failed install, the footprint mode, the batch mode -- every manifest is
    as it was. *)
Theorem install_writes_manifest_only_after_install (to_install : option string)
    (jlcpcb upgrade : bool) (p : Project FileContent) :
  files (install to_install jlcpcb upgrade p).2 = files p
  \/ (jlcpcb = false
      /\ exists spec repo val s',
           to_install = Some spec
           /\ PyStr.truthy spec = true
           /\ enclosing_repo = Some repo
           /\ install_dependency spec (working_tree_dir repo) upgrade (modules p)
              = (Return val, s')).
Proof.
  unfold install. destruct enclosing_repo as [repo|]; [|by left].
  destruct jlcpcb.
  - destruct to_install as [id|]; [|by left].
    destruct (install_jlcpcb id _) as [[u|e] trace]; left; reflexivity.
  - destruct to_install as [spec|]; cbn [default from_option id modules files outside].
    + destruct (PyStr.truthy spec) eqn:Htruthy.
      * destruct (install_dependency spec (working_tree_dir repo) upgrade (modules p))
          as [[val|e] s'] eqn:Hrun; [|by left].
        right. split; [reflexivity|]. by exists spec, repo, val, s'.
      * left. destruct (install_dependencies_from_yaml _ _ _) as [[u|e] s']; reflexivity.
    + left. destruct (install_dependencies_from_yaml _ _ _) as [[u|e] s']; reflexivity.
Qed.

End CommandProperties.

Lemma split_loop_none_name (cands : list string) (spec : string) :
  (split_loop cands spec).2 = None -> (split_loop cands spec).1 = spec.
Proof.
  induction cands as [|c cands IH]; simpl; [reflexivity|].
  destruct (PyStr.contains c spec); [|exact IH].
  destruct (PyStr.find c spec <? 0); [exact IH | discriminate].
Qed.

Section CommandByName.
Context `{VersionLib} `{!VersionStr} `{GitBackend} `{ProjectConfigFile}
        `{YamlLib} `{!YamlRoundTrip} `{FootprintEnv}.

(** Whatever the manifest holds, a call on an existing manifest leaves the
    spec in its dependency list. *)
Lemma set_dependency_records (top_level_path module_spec : string)
    (fs : gmap string FileContent) (content : FileContent) :
  fs !! path_join top_level_path "ato.yaml" = Some content ->
  exists fs',
    set_dependency_to_ato_yaml top_level_path module_spec fs = (Return tt, fs')
    /\ module_spec ∈ manifest_dependencies top_level_path fs'.
Proof.
  intros Hf.
  destruct (update_dependencies_cases (manifest_dependencies top_level_path fs) module_spec)
    as [(Hin & d & Hu & _) | (_ & kept & Hu & _)];
    rewrite (set_dependency_run _ _ _ _ _ _ Hf Hu); eexists; (split; [reflexivity|]).
  - exact Hin.
  - rewrite manifest_dependencies_written. apply elem_of_app. right. left.
Qed.

Lemma install_by_name_run (spec : string) (repo : EnclosingRepo) (upgrade : bool)
    (p : Project FileContent) (val : Value) (s' : State) (fs' : gmap string FileContent) :
  enclosing_repo = Some repo ->
  PyStr.truthy spec = true ->
  install_dependency spec (working_tree_dir repo) upgrade (modules p) = (Return val, s') ->
  set_dependency_to_ato_yaml (working_tree_dir repo)
    match (split_module_spec spec).2 with
    | Some _ => spec
    | None => if value_truthy val
              then (split_module_spec spec).1 +:+ "^" +:+ value_str val
              else spec
    end (files p) = (Return tt, fs') ->
  install (Some spec) false upgrade p
  = done {| modules := s'; files := fs'; outside := outside p ++ [OpenRepo "."] |}.
Proof.
  intros Hrepo Htruthy Hrun Hset. unfold install. rewrite Hrepo.
  cbn [default from_option id modules files outside]. rewrite Htruthy, Hrun.
  cbv zeta. by rewrite Hset.
Qed.

(** X16: given a spec with a constraint and no [--upgrade], when the
    module's working copy is already there the command checks nothing and
    installs nothing -- no git command, every working copy as it was -- and
    still records the spec in the manifest. *)
Theorem install_records_spec_without_upgrade (spec constraint : string)
    (repo : EnclosingRepo) (cfg : ProjectCfg) (r : Repo) (content : FileContent)
    (p : Project FileContent) :
  enclosing_repo = Some repo ->
  get_project_config_from_path (working_tree_dir repo) = Some cfg ->
  PyStr.truthy spec = true ->
  (split_module_spec spec).2 = Some constraint ->
  repos (modules p) !! path_join (cfg_abs_module_path cfg) (split_module_spec spec).1 = Some r ->
  files p !! path_join (working_tree_dir repo) "ato.yaml" = Some content ->
  exists p',
    install (Some spec) false false p = (Done, p')
    /\ repos (modules p') = repos (modules p)
    /\ events (modules p')
       = events (modules p)
           ++ [LogInfo ((split_module_spec spec).1
                        +:+ " already exists. If you wish to upgrade, use --upgrade");
               LogInfo "[green]Done![/] :call_me_hand:"]
    /\ spec ∈ manifest_dependencies (working_tree_dir repo) (files p').
Proof.
  intros Hrepo Hcfg Htruthy Hsplit Hr Hf.
  assert (abs_module_path (working_tree_dir repo) = Some (cfg_abs_module_path cfg)) as Hpath
    by (simpl; by rewrite Hcfg).
  pose proof (install_dependency_present_no_upgrade spec _ _ (modules p) r Hpath Hr) as Hrun.
  destruct (set_dependency_records (working_tree_dir repo) spec (files p) content Hf)
    as (fs' & Hset & Hin).
  eexists. split.
  - rewrite (install_by_name_run spec repo false p VNone _ fs' Hrepo Htruthy Hrun);
      [reflexivity|]. by rewrite Hsplit.
  - cbn [done snd modules files emit modify repos events]. repeat split; [|exact Hin].
    by rewrite <- app_assoc.
Qed.

(** X17: given a bare name (no constraint), the command records in the
    manifest what [install_dependency] returned: the bare name when that is
    [None] (the module was already there), and otherwise the name, a caret
    and the name of the tag that was checked out, as the tag spells it. *)
Theorem install_bare_name_manifest_entry (spec : string) (repo : EnclosingRepo)
    (upgrade : bool) (p : Project FileContent) (val : Value) (s' : State)
    (content : FileContent) :
  enclosing_repo = Some repo ->
  PyStr.truthy spec = true ->
  (split_module_spec spec).2 = None ->
  install_dependency spec (working_tree_dir repo) upgrade (modules p) = (Return val, s') ->
  files p !! path_join (working_tree_dir repo) "ato.yaml" = Some content ->
  exists p' entry,
    install (Some spec) false upgrade p = (Done, p')
    /\ repos (modules p') = repos s'
    /\ entry ∈ manifest_dependencies (working_tree_dir repo) (files p')
    /\ ((val = VNone /\ entry = spec)
        \/ exists tag v, val = VRef (RefTag tag)
                         /\ version_parse tag = Some v
                         /\ entry = spec +:+ "^" +:+ tag).
Proof.
  intros Hrepo Htruthy Hsplit Hrun Hf.
  assert ((split_module_spec spec).1 = spec) as Hname
    by (by apply split_loop_none_name).
  assert (val = VNone
          \/ exists tag v, val = VRef (RefTag tag) /\ version_parse tag = Some v) as Hval.
  { destruct (install_dependency_outcome spec (working_tree_dir repo) upgrade (modules p))
      as [[_ Hr] | (mp & res & s2 & evs & _ & Hr & _ & _ & Hcases)];
      rewrite Hrun in Hr; [discriminate Hr|].
    injection Hr as <- <-. cbv zeta in Hcases.
    destruct Hcases as [(_ & _ & [= ->] & _) | [([e He] & _) | (r & _ & Hpast)]];
      [by left | discriminate He |].
    destruct Hpast as [[_ [e He]] | (ref & r' & _ & _ & _ & _ & Hv)]; [discriminate He|].
    destruct Hv as [[= ->] | (v & tag & [= ->] & _ & Hp & _)]; [by left|].
    right. by exists tag, v. }
  set (entry := match (split_module_spec spec).2 with
                | Some _ => spec
                | None => if value_truthy val
                          then (split_module_spec spec).1 +:+ "^" +:+ value_str val
                          else spec
                end).
  destruct (set_dependency_records (working_tree_dir repo) entry (files p) content Hf)
    as (fs' & Hset & Hin).
  eexists _, entry. split.
  - rewrite (install_by_name_run spec repo upgrade p val s' fs' Hrepo Htruthy Hrun Hset).
    reflexivity.
  - cbn [done snd modules files emit modify repos]. split; [reflexivity|].
    split; [exact Hin|]. subst entry. rewrite Hsplit, Hname.
    destruct Hval as [-> | (tag & v & -> & Hp)]; [by left|].
    right. by exists tag, v.
Qed.

End CommandByName.

(** ** Runs of the command in the sample project *)

(** [ato install pkg^2.0.0] where [pkg] is installed with local changes and
    the manifest lists [pkg^1.0.0]. *)
Lemma spec_recorded_without_install :
  exists p',
    SampleProject.run_install (Some Sample.released) ["pkg^1.0.0"]
      (Some "pkg^2.0.0") false false
      (SampleProject.project (Sample.state_with Sample.pkg_path Sample.edited) ["pkg^1.0.0"])
    = (Done, p')
    /\ repos (modules p') !! Sample.pkg_path = Some Sample.edited
    /\ "pkg^2.0.0" ∈ manifest_dependencies (H := Sample.yaml_lib) "/proj" (files p').
Proof.
  destruct (install_records_spec_without_upgrade
              (H := Sample.version_lib) (H0 := SampleProject.version_printer)
              (H1 := Sample.git_backend (Some Sample.released))
              (H2 := SampleProject.config_file ["pkg^1.0.0"])
              (H3 := Sample.yaml_lib) (H4 := sample_yaml_round_trip)
              (H5 := Sample.footprint_env)
              "pkg^2.0.0" "^2.0.0"
              {| working_tree_dir := "/proj"; remote_url := Some "git@example.org:me/proj.git" |}
              {| cfg_abs_module_path := "/proj/.ato/modules"; cfg_dependencies := ["pkg^1.0.0"] |}
              Sample.edited
              {| dependencies := Some ["pkg^1.0.0"]; other_keys := ∅ |}
              (SampleProject.project (Sample.state_with Sample.pkg_path Sample.edited)
                 ["pkg^1.0.0"]))
    as (p' & Hrun & Hrepos & _ & Hin);
    [reflexivity | reflexivity | reflexivity | vm_compute; reflexivity
     | vm_compute; reflexivity | vm_compute; reflexivity |].
  exists p'. split; [exact Hrun|]. split; [|exact Hin].
  etransitivity; [exact (f_equal (fun m => m !! Sample.pkg_path) Hrepos)|].
  vm_compute. reflexivity.
Defined.

(** [ato install pkg] into an empty project: the manifest entry is made
    from the name of the tag that was checked out. *)
Lemma bare_name_entry_from_tag_object :
  exists p' entry,
    SampleProject.run_install (Some Sample.released) []
      (Some "pkg") false false (SampleProject.project Sample.empty_state [])
    = (Done, p')
    /\ entry ∈ manifest_dependencies (H := Sample.yaml_lib) "/proj" (files p')
    /\ entry = "pkg^2.0.0".
Proof.
  destruct (install_dependency (H := Sample.version_lib)
              (H0 := Sample.git_backend (Some Sample.released))
              (H1 := config_paths (H := SampleProject.config_file []))
              "pkg" "/proj" false Sample.empty_state) as [res s'] eqn:Hrun.
  assert (res = Return (VRef (RefTag "2.0.0"))) as ->
    by (vm_compute in Hrun; by injection Hrun as <- _).
  destruct (install_bare_name_manifest_entry
              (H := Sample.version_lib) (H0 := SampleProject.version_printer)
              (H1 := Sample.git_backend (Some Sample.released))
              (H2 := SampleProject.config_file [])
              (H3 := Sample.yaml_lib) (H4 := sample_yaml_round_trip)
              (H5 := Sample.footprint_env)
              "pkg"
              {| working_tree_dir := "/proj"; remote_url := Some "git@example.org:me/proj.git" |}
              false (SampleProject.project Sample.empty_state [])
              (VRef (RefTag "2.0.0")) s'
              {| dependencies := Some []; other_keys := ∅ |})
    as (p' & entry & Hinst & _ & Hin & Hentry);
    [reflexivity | reflexivity | vm_compute; reflexivity | exact Hrun
     | vm_compute; reflexivity |].
  exists p', entry. split; [exact Hinst|]. split; [exact Hin|].
  destruct Hentry as [[Hnone _] | (tag & v & Hval & _ & ->)]; [discriminate Hnone|].
  by injection Hval as <-.
Defined.

(** ** The name [split_module_spec] returns *)

Lemma take_empty (n : nat) : PyStr.take n EmptyString = EmptyString.
Proof. by destruct n. Qed.

Lemma length_take_le (n : nat) (s : string) :
  (String.length (PyStr.take n s) <= n)%nat
  /\ (String.length (PyStr.take n s) <= String.length s)%nat.
Proof.
  revert s. induction n as [|n IH]; intros s; simpl; [lia|].
  destruct s as [|c s]; simpl; [lia|]. destruct (IH s). lia.
Qed.

Lemma length_drop (k : nat) (s : string) :
  String.length (PyStr.drop k s) = (String.length s - k)%nat.
Proof.
  revert s. induction k as [|k IH]; intros s; simpl; [lia|].
  destruct s as [|c s]; simpl; [reflexivity | apply IH].
Qed.

Lemma drop_drop (j k : nat) (s : string) :
  PyStr.drop j (PyStr.drop k s) = PyStr.drop (k + j) s.
Proof.
  revert s. induction k as [|k IH]; intros s; simpl; [reflexivity|].
  destruct s as [|c s]; [by destruct j | apply IH].
Qed.

Lemma drop_take (j n : nat) (s : string) :
  PyStr.drop j (PyStr.take n s) = PyStr.take (n - j) (PyStr.drop j s).
Proof.
  revert n s. induction j as [|j IH]; intros n s; simpl.
  - by rewrite Nat.sub_0_r.
  - destruct n as [|n]; simpl; [by destruct s|].
    destruct s as [|c s]; simpl; [by rewrite take_empty | apply IH].
Qed.

Lemma startswith_take (t : string) (n : nat) (s : string) :
  PyStr.startswith t (PyStr.take n s) = true ->
  PyStr.startswith t s = true /\ (String.length t <= n)%nat.
Proof.
  revert n s. induction t as [|a t IH]; intros n s; simpl; [intros _; split; [done | lia]|].
  destruct n as [|n]; simpl; [discriminate|].
  destruct s as [|b s]; simpl; [discriminate|].
  destruct (Ascii.eqb a b); [|discriminate].
  intros Hs. destruct (IH n s Hs). split; [done | lia].
Qed.

(** A token that starts at an index of a prefix starts there in the whole
    string, and ends within the prefix. *)
Lemma occurs_at_take (t s : string) (n j : nat) :
  occurs_at t (PyStr.take n s) j ->
  occurs_at t s j /\ (j + String.length t <= n)%nat.
Proof.
  intros [Hj Hs]. destruct (length_take_le n s) as [Hn Hl].
  rewrite drop_take in Hs. apply startswith_take in Hs as [Hs Hlen].
  split; [split; [lia | exact Hs] | lia].
Qed.

Lemma occurs_at_drop (t s : string) (k j : nat) :
  occurs_at t (PyStr.drop k s) j -> (k <= String.length s)%nat -> occurs_at t s (k + j).
Proof.
  intros [Hj Hs] Hk. rewrite length_drop in Hj. rewrite drop_drop in Hs.
  split; [lia | exact Hs].
Qed.

Lemma lstrip_is_drop (p : ascii -> bool) (s : string) :
  exists k, (k <= String.length s)%nat /\ PyStr.lstrip_with p s = PyStr.drop k s.
Proof.
  induction s as [|c s (k & Hk & IH)]; simpl; [by exists 0%nat|].
  destruct (p c).
  - exists (S k). split; [lia | exact IH].
  - exists 0%nat. split; [lia | reflexivity].
Qed.

Lemma rstrip_is_take (p : ascii -> bool) (s : string) :
  exists k, PyStr.rstrip_with p s = PyStr.take k s.
Proof.
  induction s as [|c s (k & IH)]; simpl; [by exists 0%nat|].
  rewrite IH. destruct (PyStr.take k s) eqn:E.
  - destruct (p c); [by exists 0%nat | by exists 1%nat].
  - exists (S k). simpl. by rewrite E.
Qed.

(** A token that occurs in a stripped string occurs, further right or at
    the same place, in the string itself. *)
Lemma occurs_at_strip (p : ascii -> bool) (t s : string) (j : nat) :
  occurs_at t (PyStr.strip_with p s) j -> exists k, occurs_at t s (k + j).
Proof.
  unfold PyStr.strip_with. intros Ho.
  destruct (rstrip_is_take p (PyStr.lstrip_with p s)) as [k2 E2]. rewrite E2 in Ho.
  apply occurs_at_take in Ho as [Ho _].
  destruct (lstrip_is_drop p s) as (k1 & Hk1 & E1). rewrite E1 in Ho.
  exists k1. by apply occurs_at_drop.
Qed.

Section SplitName.
Context `{VersionLib}.

(** X18: the name [split_module_spec] returns holds no occurrence of the
    token the string was split at, nor of any candidate tried before it. *)
Theorem split_name_free_of_splitters (spec : string) (pre : list string) (t : string)
    (post : list string) (i : nat) :
  splitters = pre ++ t :: post ->
  (forall u, u ∈ pre -> ~ occurs u spec) ->
  leftmost_occurrence t spec i ->
  t <> EmptyString ->
  forall u, u ∈ pre ++ [t] -> ~ occurs u (split_module_spec spec).1.
Proof.
  intros Hs Hpre Hl Hne u Hu [j Ho].
  unfold split_module_spec in Ho. rewrite Hs in Ho.
  rewrite (split_loop_first pre t post spec i Hpre Hl) in Ho. cbn [fst] in Ho.
  apply occurs_at_strip in Ho as [k Ho].
  apply occurs_at_take in Ho as [Ho Hlen].
  apply elem_of_app in Hu as [Hu | Hu].
  - apply (Hpre u Hu). by exists (k + j)%nat.
  - apply list_elem_of_singleton in Hu as ->.
    destruct Hl as [_ Hleft]. apply (Hleft (k + j)%nat); [|exact Ho].
    destruct t; [done|]. simpl in Hlen. lia.
Qed.

End SplitName.

(** The string [pkg >= 1.0,>=0.5] is split at its first [>=]; the name
    holds none. *)
Lemma name_of_my_pkg_holds_no_operator :
  ~ occurs ">=" (split_module_spec (H := Sample.version_lib) "pkg >= 1.0,>=0.5").1.
Proof.
  apply (split_name_free_of_splitters (H := Sample.version_lib) "pkg >= 1.0,>=0.5"
           ["*"; "^"; "~"; "!"; "=="] ">=" ["<="; ">"; "<"; " "; "@"] 4%nat).
  - reflexivity.
  - tokens_absent.
  - apply leftmost_of_find. vm_compute. reflexivity.
  - discriminate.
  - apply elem_of_app. right. left.
Defined.
